(** * Veritas 2026: the content cache, profile merge, sync status and search

    A shallow embedding of the core of the devotional reader:
    - [Types]          the records and enumerations of [types.ts];
    - [DateUtils]      [formatDateFull] and the calendar dates the application uses;
    - [GeminiService]  [fetchDevotionalForDate], after the reply of the generative service;
    - [SyncService]    [mergeProfiles];
    - [App]            the state of the [App] component, its handlers
                       ([loadContent], [handleContentUpdate], [toggleComplete],
                       [persistChanges], [handleOnline], ...) and the [searchResults] memo.

    The host (ECMAScript and React) is modelled in [Js] and in the [App] step
    function: strings are byte strings, numbers that hold a time value are
    integers or NaN, an object used as a dictionary is an association list in
    insertion order, and a render commits the state updates of one handler
    together before the effects whose dependencies changed are run. *)

From Stdlib Require Import ZArith List String Ascii Bool Lia.
From Stdlib Require Import Permutation Sorted DecimalString.
Import ListNotations.
Open Scope string_scope.

(* ===================================================================== *)
(** ** The host library *)
(* ===================================================================== *)

Module Js.

(** *** Strings *)

(** [String.prototype.toLowerCase], on the ASCII letters. *)
Definition lowerChar (c : ascii) : ascii :=
  let n := nat_of_ascii c in
  if (65 <=? n)%nat && (n <=? 90)%nat then ascii_of_nat (n + 32) else c.

Fixpoint toLowerCase (s : string) : string :=
  match s with
  | EmptyString => EmptyString
  | String c r => String (lowerChar c) (toLowerCase r)
  end.

(** White space and line terminators (tab, LF, VT, FF, CR, space). *)
Definition isWhiteSpace (c : ascii) : bool :=
  let n := nat_of_ascii c in
  ((9 <=? n)%nat && (n <=? 13)%nat) || (n =? 32)%nat.

Fixpoint trimStart (s : string) : string :=
  match s with
  | EmptyString => EmptyString
  | String c r => if isWhiteSpace c then trimStart r else s
  end.

Fixpoint trimEnd (s : string) : string :=
  match s with
  | EmptyString => EmptyString
  | String c r =>
      let r' := trimEnd r in
      if isWhiteSpace c && (r' =? "") then EmptyString else String c r'
  end.

(** [String.prototype.trim]. *)
Definition trim (s : string) : string := trimEnd (trimStart s).

(** [s.includes(needle)]: [needle] occurs in [s] as a substring. *)
Fixpoint includes (s needle : string) : bool :=
  prefix needle s ||
  match s with
  | EmptyString => false
  | String _ r => includes r needle
  end.

(** Truthiness of a string: every string but the empty one. *)
Definition truthy (s : string) : bool := negb (s =? "").

(** *** Arrays of strings *)

(** [arr.includes(x)]. *)
Definition arrayIncludes (arr : list string) (x : string) : bool :=
  existsb (String.eqb x) arr.

(** *** [Set]: the elements in insertion order *)

Definition Set_add (s : list string) (x : string) : list string :=
  if arrayIncludes s x then s else s ++ [x].

(** [new Set(iterable)] adds the elements one by one. *)
Definition Set_new (iterable : list string) : list string :=
  fold_left Set_add iterable [].

(** [Array.from(set)]. *)
Definition Array_from (s : list string) : list string := s.

(** [set.size] of [new Set(arr)]: the number of distinct elements of [arr]. *)
Definition cardinality (arr : list string) : nat := List.length (Set_new arr).

(** *** Numbers that hold a time value *)

Inductive number : Type :=
| NaN
| Num (z : Z).

Definition sub (a b : number) : number :=
  match a, b with
  | Num x, Num y => Num (x - y)
  | _, _ => NaN
  end.

Definition isNaN (v : number) : bool :=
  match v with
  | NaN => true
  | Num _ => false
  end.

(** [a <= b]: false as soon as one side is NaN. *)
Definition le (a b : number) : Prop :=
  match a, b with
  | Num x, Num y => (x <= y)%Z
  | _, _ => False
  end.

(** *** [Array.prototype.sort]

    The sort is stable; a comparator result of NaN counts as [+0]. An
    element goes after another exactly when the comparator says so with a
    positive number. For a consistent comparator every stable sort returns
    this list; for an inconsistent one the standard leaves the order to the
    implementation, and this model is one such implementation. *)

Definition positive (v : number) : bool :=
  match v with
  | NaN => false
  | Num z => (0 <? z)%Z
  end.

Section Sort.
Context {A : Type} (comparefn : A -> A -> number).

Fixpoint insert (x : A) (l : list A) : list A :=
  match l with
  | [] => [x]
  | y :: r => if positive (comparefn x y) then y :: insert x r else x :: l
  end.

Definition sort (l : list A) : list A := fold_right insert [] l.
End Sort.

(** *** Promises *)

Inductive exception : Type :=
| Error (message : string)   (* [new Error(message)] thrown by the code *)
| SyntaxError                (* thrown by [JSON.parse] *)
| HostError.                 (* a failure of the host's own *)

Inductive settled (A : Type) : Type :=
| Fulfilled (value : A)
| Rejected (reason : exception).
Arguments Fulfilled {A} value.
Arguments Rejected {A} reason.

End Js.

(* ===================================================================== *)
(** ** types.ts *)
(* ===================================================================== *)

Module Types.

Record DevotionalContent : Type := {
  date : string;
  passageReference : string;
  scriptureText : string;
  reflection : string;
  morningPrayer : string;
  eveningPrayer : string;
  quote : string;
  quoteAuthor : string;
  relatedVerseReference : string;
  relatedVerseText : string;
  customPassageText : option string;
  customRelatedVerseText : option string
}.

Inductive LoadingState : Type := IDLE | LOADING | SUCCESS | ERROR.

Inductive Theme : Type := light | sepia | dark.

Record Preferences : Type := { theme : Theme }.
Record Progress : Type := { completedDates : list string }.

(** [lastSyncedAt] holds [Date.now()], an integral number of milliseconds. *)
Record UserProfile : Type := {
  preferences : Preferences;
  progress : Progress;
  lastSyncedAt : Z
}.

Inductive SyncStatus : Type := synced | syncing | error | offline.

(** [Partial<DevotionalContent>]: [None] for a property the object does not
    have. An optional property may be present and undefined. *)
Record PartialContent : Type := {
  date' : option string;
  passageReference' : option string;
  scriptureText' : option string;
  reflection' : option string;
  morningPrayer' : option string;
  eveningPrayer' : option string;
  quote' : option string;
  quoteAuthor' : option string;
  relatedVerseReference' : option string;
  relatedVerseText' : option string;
  customPassageText' : option (option string);
  customRelatedVerseText' : option (option string)
}.

Definition override {A : Type} (old : A) (new : option A) : A :=
  match new with
  | Some v => v
  | None => old
  end.

(** [{ ...c, ...f }]. *)
Definition spread (c : DevotionalContent) (f : PartialContent) : DevotionalContent :=
  {| date := override (date c) (date' f);
     passageReference := override (passageReference c) (passageReference' f);
     scriptureText := override (scriptureText c) (scriptureText' f);
     reflection := override (reflection c) (reflection' f);
     morningPrayer := override (morningPrayer c) (morningPrayer' f);
     eveningPrayer := override (eveningPrayer c) (eveningPrayer' f);
     quote := override (quote c) (quote' f);
     quoteAuthor := override (quoteAuthor c) (quoteAuthor' f);
     relatedVerseReference := override (relatedVerseReference c) (relatedVerseReference' f);
     relatedVerseText := override (relatedVerseText c) (relatedVerseText' f);
     customPassageText := override (customPassageText c) (customPassageText' f);
     customRelatedVerseText :=
       override (customRelatedVerseText c) (customRelatedVerseText' f) |}.

(** The properties of a [DevotionalContent], to speak of one of them. *)
Inductive Field : Type :=
| Fdate | FpassageReference | FscriptureText | Freflection | FmorningPrayer
| FeveningPrayer | Fquote | FquoteAuthor | FrelatedVerseReference
| FrelatedVerseText | FcustomPassageText | FcustomRelatedVerseText.

(** [c[x]]: [None] for undefined. *)
Definition field (x : Field) (c : DevotionalContent) : option string :=
  match x with
  | Fdate => Some (date c)
  | FpassageReference => Some (passageReference c)
  | FscriptureText => Some (scriptureText c)
  | Freflection => Some (reflection c)
  | FmorningPrayer => Some (morningPrayer c)
  | FeveningPrayer => Some (eveningPrayer c)
  | Fquote => Some (quote c)
  | FquoteAuthor => Some (quoteAuthor c)
  | FrelatedVerseReference => Some (relatedVerseReference c)
  | FrelatedVerseText => Some (relatedVerseText c)
  | FcustomPassageText => customPassageText c
  | FcustomRelatedVerseText => customRelatedVerseText c
  end.

(** The value [f] supplies for [x]: the outer [None] when [f] has no such
    property. *)
Definition supplied (x : Field) (f : PartialContent) : option (option string) :=
  match x with
  | Fdate => option_map Some (date' f)
  | FpassageReference => option_map Some (passageReference' f)
  | FscriptureText => option_map Some (scriptureText' f)
  | Freflection => option_map Some (reflection' f)
  | FmorningPrayer => option_map Some (morningPrayer' f)
  | FeveningPrayer => option_map Some (eveningPrayer' f)
  | Fquote => option_map Some (quote' f)
  | FquoteAuthor => option_map Some (quoteAuthor' f)
  | FrelatedVerseReference => option_map Some (relatedVerseReference' f)
  | FrelatedVerseText => option_map Some (relatedVerseText' f)
  | FcustomPassageText => customPassageText' f
  | FcustomRelatedVerseText => customRelatedVerseText' f
  end.

(** [f] supplies the single property [x]. *)
Definition suppliesOnly (x : Field) (f : PartialContent) : Prop :=
  supplied x f <> None /\ forall y, y <> x -> supplied y f = None.

End Types.

(* ===================================================================== *)
(** ** utils/dateUtils.ts *)
(* ===================================================================== *)

Module DateUtils.
Local Open Scope Z_scope.

(** A [Date] as the application builds them: local midnight of a calendar
    day ([new Date(year, month, day)]), read through its getters. The month
    counts from 0. The strings below are the host's for the days of the
    years 0 to 9999. *)
Record JsDate : Type := {
  getFullYear : Z;
  getMonth : Z;
  getDate : Z
}.

(** Days from 1970-01-01 to the civil date [y]-[m]-[d] ([m] from 1). *)
Definition daysFromCivil (y m d : Z) : Z :=
  let y' := if m <=? 2 then y - 1 else y in
  let era := y' / 400 in
  let yoe := y' - era * 400 in
  let mp := if 2 <? m then m - 3 else m + 9 in
  let doy := (153 * mp + 2) / 5 + d - 1 in
  let doe := yoe * 365 + yoe / 4 - yoe / 100 + doy in
  era * 146097 + doe - 719468.

(** [date.getDay()]: 0 is Sunday; 1970-01-01 was a Thursday. *)
Definition getDay (d : JsDate) : Z :=
  (daysFromCivil (getFullYear d) (getMonth d + 1) (getDate d) + 4) mod 7.

Definition months : list string :=
  ["January"; "February"; "March"; "April"; "May"; "June";
   "July"; "August"; "September"; "October"; "November"; "December"].

Definition weekdays : list string :=
  ["Sunday"; "Monday"; "Tuesday"; "Wednesday"; "Thursday"; "Friday"; "Saturday"].

Definition monthName (d : JsDate) : string :=
  nth (Z.to_nat (getMonth d)) months "".

Definition weekdayName (d : JsDate) : string :=
  nth (Z.to_nat (getDay d)) weekdays "".

Definition decimal (z : Z) : string :=
  NilZero.string_of_uint (N.to_uint (Z.to_N z)).

Fixpoint zeros (n : nat) : string :=
  match n with
  | O => ""
  | S k => "0" ++ zeros k
  end.

(** The decimal digits of [z], with zeros in front up to [width]. *)
Definition padStart (width : nat) (z : Z) : string :=
  let s := decimal z in
  zeros (width - String.length s) ++ s.

(** [date.toDateString()]: the weekday and month by their first three
    letters, the day on two digits, the year on four. *)
Definition toDateString (d : JsDate) : string :=
  substring 0 3 (weekdayName d) ++ " " ++ substring 0 3 (monthName d) ++ " "
    ++ padStart 2 (getDate d) ++ " " ++ padStart 4 (getFullYear d).

(** [date.toLocaleDateString('en-US', { weekday: 'long', year: 'numeric',
    month: 'long', day: 'numeric' })]. *)
Definition formatDateFull (d : JsDate) : string :=
  weekdayName d ++ ", " ++ monthName d ++ " " ++ decimal (getDate d) ++ ", "
    ++ decimal (getFullYear d).

End DateUtils.

(* ===================================================================== *)
(** ** services/geminiService.ts *)
(* ===================================================================== *)

Module GeminiService.
Import Types.

(** The object [JSON.parse] returns for a reply that follows
    [devotionalSchema]: the nine required string properties. The code
    validates nothing itself; the model follows the declared type. *)
Record Payload : Type := {
  p_passageReference : string;
  p_scriptureText : string;
  p_reflection : string;
  p_morningPrayer : string;
  p_eveningPrayer : string;
  p_quote : string;
  p_quoteAuthor : string;
  p_relatedVerseReference : string;
  p_relatedVerseText : string
}.

(** How [await ai.models.generateContent(...)] ends: it rejects, or it
    returns a response whose [text] is a string or undefined. *)
Inductive AiReply : Type :=
| GenerateRejects
| Response (text : option string).

Section WithHost.
(** [JSON.parse]: [None] when it throws. *)
Variable JSON_parse : string -> option Payload.

(** The function from the reply on; the prompt is fixed by [dateStr]. *)
Definition fetchDevotionalForDate (dateStr : string) (reply : AiReply)
  : Js.settled DevotionalContent :=
  match reply with
  | GenerateRejects => Js.Rejected Js.HostError
  | Response text =>
      match text with
      | None => Js.Rejected (Js.Error "Empty response from AI")
      | Some jsonText =>
          if negb (Js.truthy jsonText)
          then Js.Rejected (Js.Error "Empty response from AI")
          else
            match JSON_parse jsonText with
            | None => Js.Rejected Js.SyntaxError
            | Some data =>
                Js.Fulfilled
                  {| date := dateStr;
                     passageReference := p_passageReference data;
                     scriptureText := p_scriptureText data;
                     reflection := p_reflection data;
                     morningPrayer := p_morningPrayer data;
                     eveningPrayer := p_eveningPrayer data;
                     quote := p_quote data;
                     quoteAuthor := p_quoteAuthor data;
                     relatedVerseReference := p_relatedVerseReference data;
                     relatedVerseText := p_relatedVerseText data;
                     customPassageText := None;
                     customRelatedVerseText := None |}
            end
      end
  end.

(** The replies the fetch fails on: the call rejects, the text is
    undefined or empty, or the text is not JSON. *)
Inductive FailedReply : AiReply -> Prop :=
| failed_rejects : FailedReply GenerateRejects
| failed_undefined : FailedReply (Response None)
| failed_empty : FailedReply (Response (Some ""))
| failed_unparseable (jsonText : string) :
    JSON_parse jsonText = None -> FailedReply (Response (Some jsonText)).
End WithHost.

End GeminiService.

(* ===================================================================== *)
(** ** services/syncService.ts *)
(* ===================================================================== *)

Module SyncService.
Import Types.

(** [defaultProfile]; [now] is what [Date.now()] returned when the module
    was loaded. *)
Definition defaultProfile (now : Z) : UserProfile :=
  {| preferences := {| theme := light |};
     progress := {| completedDates := [] |};
     lastSyncedAt := now |}.

(** [mergeProfiles(local, cloud)]; [now] is what [Date.now()] returns. *)
Definition mergeProfiles (now : Z) (local cloud : UserProfile) : UserProfile :=
  let mergedDates :=
    Js.Array_from
      (Js.Set_new (completedDates (progress local) ++ completedDates (progress cloud))) in
  let useCloudSettings := (lastSyncedAt cloud >? lastSyncedAt local)%Z in
  {| preferences :=
       {| theme := if useCloudSettings
                   then theme (preferences cloud)
                   else theme (preferences local) |};
     progress := {| completedDates := mergedDates |};
     lastSyncedAt := now |}.

End SyncService.

(* ===================================================================== *)
(** ** App.tsx *)
(* ===================================================================== *)

Module App.
Import Types DateUtils GeminiService.

(** *** The cache object

    [Record<string, DevotionalContent>]: the own properties in insertion
    order, which is the order of [Object.values]. The keys are results of
    [toDateString], never array indices or inherited property names. *)
Definition Cache : Type := list (string * DevotionalContent).

(** [cache[key]]. *)
Fixpoint get (cache : Cache) (key : string) : option DevotionalContent :=
  match cache with
  | [] => None
  | (k, v) :: r => if k =? key then Some v else get r key
  end.

(** [{ ...prev, [key]: value }]: an existing property keeps its place. *)
Fixpoint put (prev : Cache) (key : string) (value : DevotionalContent) : Cache :=
  match prev with
  | [] => [(key, value)]
  | (k, v) :: r => if k =? key then (k, value) :: r else (k, v) :: put r key value
  end.

(** [Object.values(cache)]. *)
Definition values (cache : Cache) : list DevotionalContent := map snd cache.

(** *** The state of the component and of the host around it *)

(** A call of [loadContent] suspended at [await fetchDevotionalForDate]:
    the continuation holds the [key] of the call. *)
Record Fetch : Type := { fetchKey : string; fetchDateStr : string }.

(** A call of [persistChanges] suspended at [await syncService.saveData],
    with the theme and dates of the profile it saves. *)
Record Save : Type := { saveTheme : Theme; saveCompletedDates : list string }.

Record State : Type := {
  currentDate : JsDate;
  content : option DevotionalContent;
  loadingState : LoadingState;
  completedDates : list string;
  theme : Theme;
  syncStatus : SyncStatus;
  initialLoadComplete : bool;
  cache : Cache;
  isSearchMode : bool;
  searchQuery : string;
  onLine : bool;                (* [navigator.onLine] *)
  fetches : list Fetch;
  saves : list Save
}.

Definition with_currentDate (v : JsDate) (s : State) : State :=
  {| currentDate := v; content := content s; loadingState := loadingState s;
     completedDates := completedDates s; theme := theme s;
     syncStatus := syncStatus s; initialLoadComplete := initialLoadComplete s;
     cache := cache s; isSearchMode := isSearchMode s; searchQuery := searchQuery s;
     onLine := onLine s; fetches := fetches s; saves := saves s |}.

Definition with_content (v : option DevotionalContent) (s : State) : State :=
  {| currentDate := currentDate s; content := v; loadingState := loadingState s;
     completedDates := completedDates s; theme := theme s;
     syncStatus := syncStatus s; initialLoadComplete := initialLoadComplete s;
     cache := cache s; isSearchMode := isSearchMode s; searchQuery := searchQuery s;
     onLine := onLine s; fetches := fetches s; saves := saves s |}.

Definition with_loadingState (v : LoadingState) (s : State) : State :=
  {| currentDate := currentDate s; content := content s; loadingState := v;
     completedDates := completedDates s; theme := theme s;
     syncStatus := syncStatus s; initialLoadComplete := initialLoadComplete s;
     cache := cache s; isSearchMode := isSearchMode s; searchQuery := searchQuery s;
     onLine := onLine s; fetches := fetches s; saves := saves s |}.

Definition with_completedDates (v : list string) (s : State) : State :=
  {| currentDate := currentDate s; content := content s;
     loadingState := loadingState s; completedDates := v; theme := theme s;
     syncStatus := syncStatus s; initialLoadComplete := initialLoadComplete s;
     cache := cache s; isSearchMode := isSearchMode s; searchQuery := searchQuery s;
     onLine := onLine s; fetches := fetches s; saves := saves s |}.

Definition with_theme (v : Theme) (s : State) : State :=
  {| currentDate := currentDate s; content := content s;
     loadingState := loadingState s; completedDates := completedDates s; theme := v;
     syncStatus := syncStatus s; initialLoadComplete := initialLoadComplete s;
     cache := cache s; isSearchMode := isSearchMode s; searchQuery := searchQuery s;
     onLine := onLine s; fetches := fetches s; saves := saves s |}.

Definition with_syncStatus (v : SyncStatus) (s : State) : State :=
  {| currentDate := currentDate s; content := content s;
     loadingState := loadingState s; completedDates := completedDates s;
     theme := theme s; syncStatus := v; initialLoadComplete := initialLoadComplete s;
     cache := cache s; isSearchMode := isSearchMode s; searchQuery := searchQuery s;
     onLine := onLine s; fetches := fetches s; saves := saves s |}.

Definition with_initialLoadComplete (v : bool) (s : State) : State :=
  {| currentDate := currentDate s; content := content s;
     loadingState := loadingState s; completedDates := completedDates s;
     theme := theme s; syncStatus := syncStatus s; initialLoadComplete := v;
     cache := cache s; isSearchMode := isSearchMode s; searchQuery := searchQuery s;
     onLine := onLine s; fetches := fetches s; saves := saves s |}.

Definition with_cache (v : Cache) (s : State) : State :=
  {| currentDate := currentDate s; content := content s;
     loadingState := loadingState s; completedDates := completedDates s;
     theme := theme s; syncStatus := syncStatus s;
     initialLoadComplete := initialLoadComplete s; cache := v;
     isSearchMode := isSearchMode s; searchQuery := searchQuery s;
     onLine := onLine s; fetches := fetches s; saves := saves s |}.

Definition with_isSearchMode (v : bool) (s : State) : State :=
  {| currentDate := currentDate s; content := content s;
     loadingState := loadingState s; completedDates := completedDates s;
     theme := theme s; syncStatus := syncStatus s;
     initialLoadComplete := initialLoadComplete s; cache := cache s;
     isSearchMode := v; searchQuery := searchQuery s; onLine := onLine s;
     fetches := fetches s; saves := saves s |}.

Definition with_searchQuery (v : string) (s : State) : State :=
  {| currentDate := currentDate s; content := content s;
     loadingState := loadingState s; completedDates := completedDates s;
     theme := theme s; syncStatus := syncStatus s;
     initialLoadComplete := initialLoadComplete s; cache := cache s;
     isSearchMode := isSearchMode s; searchQuery := v; onLine := onLine s;
     fetches := fetches s; saves := saves s |}.

Definition with_onLine (v : bool) (s : State) : State :=
  {| currentDate := currentDate s; content := content s;
     loadingState := loadingState s; completedDates := completedDates s;
     theme := theme s; syncStatus := syncStatus s;
     initialLoadComplete := initialLoadComplete s; cache := cache s;
     isSearchMode := isSearchMode s; searchQuery := searchQuery s; onLine := v;
     fetches := fetches s; saves := saves s |}.

Definition with_fetches (v : list Fetch) (s : State) : State :=
  {| currentDate := currentDate s; content := content s;
     loadingState := loadingState s; completedDates := completedDates s;
     theme := theme s; syncStatus := syncStatus s;
     initialLoadComplete := initialLoadComplete s; cache := cache s;
     isSearchMode := isSearchMode s; searchQuery := searchQuery s;
     onLine := onLine s; fetches := v; saves := saves s |}.

Definition with_saves (v : list Save) (s : State) : State :=
  {| currentDate := currentDate s; content := content s;
     loadingState := loadingState s; completedDates := completedDates s;
     theme := theme s; syncStatus := syncStatus s;
     initialLoadComplete := initialLoadComplete s; cache := cache s;
     isSearchMode := isSearchMode s; searchQuery := searchQuery s;
     onLine := onLine s; fetches := fetches s; saves := v |}.

(** *** What a handler does

    A handler, an effect or the continuation of an awaited call is the list
    of the state updates and asynchronous calls it makes, in order. *)
Inductive Cmd : Type :=
| setCurrentDate (date : JsDate)
| setContent (c : option DevotionalContent)
| setLoadingState (l : LoadingState)
| setCompletedDates (l : list string)
| setTheme (t : Theme)
| setSyncStatus (st : SyncStatus)
| setInitialLoadComplete (b : bool)
| setCache (key : string) (value : DevotionalContent)
    (* [setCache(prev => ({ ...prev, [key]: value }))] *)
| setIsSearchMode (b : bool)
| setSearchQuery (q : string)
| callFetch (key dateStr : string)
    (* [fetchDevotionalForDate(dateStr)] is called and awaited *)
| callSave (t : Theme) (dates : list string).
    (* [syncService.saveData(...)] is called and awaited *)

Definition exec (c : Cmd) (s : State) : State :=
  match c with
  | setCurrentDate d => with_currentDate d s
  | setContent c => with_content c s
  | setLoadingState l => with_loadingState l s
  | setCompletedDates l => with_completedDates l s
  | setTheme t => with_theme t s
  | setSyncStatus st => with_syncStatus st s
  | setInitialLoadComplete b => with_initialLoadComplete b s
  | setCache key value => with_cache (put (cache s) key value) s
  | setIsSearchMode b => with_isSearchMode b s
  | setSearchQuery q => with_searchQuery q s
  | callFetch key dateStr =>
      with_fetches (fetches s ++ [{| fetchKey := key; fetchDateStr := dateStr |}]) s
  | callSave t dates =>
      with_saves (saves s ++ [{| saveTheme := t; saveCompletedDates := dates |}]) s
  end.

Definition run (cmds : list Cmd) (s : State) : State :=
  fold_left (fun st c => exec c st) cmds s.

(** *** The handlers *)

(** [initApp], from the point where [await syncService.loadData()] settles. *)
Definition initApp_resume (r : Js.settled UserProfile) : list Cmd :=
  match r with
  | Js.Fulfilled profile =>
      [setCompletedDates (Types.completedDates (progress profile));
       setTheme (Types.theme (preferences profile));
       setInitialLoadComplete true]
  | Js.Rejected _ => [setSyncStatus error; setInitialLoadComplete true]
  end.

Definition handleOnline : list Cmd := [setSyncStatus synced].
Definition handleOffline : list Cmd := [setSyncStatus offline].

(** [persistChanges], up to [await syncService.saveData(...)]. *)
Definition persistChanges (navigatorOnLine : bool) (newTheme : Theme)
    (newCompletedDates : list string) : list Cmd :=
  [setSyncStatus (if negb navigatorOnLine then offline else syncing);
   callSave newTheme newCompletedDates].

(** [persistChanges], from the point where [saveData] settles: [saved] is
    false when it rejects. *)
Definition persistChanges_resume (navigatorOnLine saved : bool) : list Cmd :=
  if saved
  then (if navigatorOnLine then [setSyncStatus synced] else [])
  else [setSyncStatus error].

Definition handleThemeChange (newTheme : Theme) : list Cmd := [setTheme newTheme].

Definition toggleComplete (s : State) : list Cmd :=
  let key := toDateString (currentDate s) in
  let newCompleted :=
    if Js.arrayIncludes (completedDates s) key
    then filter (fun d => negb (d =? key)) (completedDates s)
    else (completedDates s ++ [key])%list in
  [setCompletedDates newCompleted].

(** [loadContent], with the [cache] of the render that made the callback,
    up to [await fetchDevotionalForDate(formattedDate)]. *)
Definition loadContent (cache : Cache) (date : JsDate) : list Cmd :=
  let key := toDateString date in
  match get cache key with
  | Some c => [setContent (Some c); setLoadingState SUCCESS]
  | None => [setLoadingState LOADING; callFetch key (formatDateFull date)]
  end.

(** [loadContent], from the point where the fetch settles; [key] is the
    key of the call that was suspended. *)
Definition loadContent_resume (key : string) (r : Js.settled DevotionalContent)
  : list Cmd :=
  match r with
  | Js.Fulfilled data =>
      [setCache key data; setContent (Some data); setLoadingState SUCCESS]
  | Js.Rejected _ => [setLoadingState ERROR]
  end.

Definition handleContentUpdate (s : State) (updatedFields : PartialContent)
  : list Cmd :=
  match content s with
  | None => []
  | Some c =>
      let updatedContent := spread c updatedFields in
      let key := toDateString (currentDate s) in
      [setContent (Some updatedContent); setCache key updatedContent]
  end.

(** The sidebar, which [handleDateSelect] also closes on a narrow window,
    is not part of the model. *)
Definition handleDateSelect (date : JsDate) : list Cmd :=
  [setCurrentDate date; setIsSearchMode false; setSearchQuery ""].

(** *** Renders and effects

    The updates of one handler are committed together. Then the effects
    whose dependencies changed run, in the order of their declaration:
    the automatic sync (dependencies [theme], [completedDates],
    [initialLoadComplete]) and the load of the current date (dependencies
    [currentDate] and [loadContent], a callback that is made anew when
    [cache] changes). A date, an array or the cache object set by a
    handler is a new object, so it counts as changed; a theme or a boolean
    changes when its value does. *)

Definition Theme_eqb (a b : Theme) : bool :=
  match a, b with
  | light, light | sepia, sepia | dark, dark => true
  | _, _ => false
  end.

Definition setsCurrentDate (c : Cmd) : bool :=
  match c with setCurrentDate _ => true | _ => false end.

Definition setsCompletedDates (c : Cmd) : bool :=
  match c with setCompletedDates _ => true | _ => false end.

Definition setsCache (c : Cmd) : bool :=
  match c with setCache _ _ => true | _ => false end.

Definition syncEffect (before after : State) (done : list Cmd) : list Cmd :=
  if negb (Theme_eqb (theme before) (theme after))
     || existsb setsCompletedDates done
     || negb (Bool.eqb (initialLoadComplete before) (initialLoadComplete after))
  then
    if negb (initialLoadComplete after) then []
    else persistChanges (onLine after) (theme after) (completedDates after)
  else [].

Definition loadEffect (after : State) (done : list Cmd) : list Cmd :=
  if existsb setsCurrentDate done || existsb setsCache done
  then loadContent (cache after) (currentDate after)
  else [].

Definition effects (before after : State) (done : list Cmd) : list Cmd :=
  syncEffect before after done ++ loadEffect after done.

(** *** Events *)

Inductive Event : Type :=
| ProfileLoaded (r : Js.settled UserProfile)  (* [loadData()] settles *)
| DateSelect (date : JsDate)                  (* [handleDateSelect(date)] *)
| ContentUpdate (updatedFields : PartialContent)
| MarkComplete                                (* [toggleComplete()] *)
| ThemeChange (newTheme : Theme)
| SearchInput (q : string)                    (* [setSearchQuery(e.target.value)] *)
| Online                                      (* the window's [online] event *)
| Offline                                     (* the window's [offline] event *)
| FetchSettles (i : nat) (reply : AiReply)    (* the [i]-th pending fetch settles *)
| SaveSettles (i : nat) (saved : bool).       (* the [i]-th pending save settles *)

Definition removeNth {A : Type} (i : nat) (l : list A) : list A :=
  firstn i l ++ skipn (S i) l.

Section WithHost.
Variable JSON_parse : string -> option Payload.

(** The host's part of an event, and the commands of the handler or
    continuation it runs. [initApp] runs once: a profile that arrives after
    the initial load is complete is not looked at. A settled promise leaves
    the pending ones. *)
Definition dispatch (s : State) (e : Event) : State * list Cmd :=
  match e with
  | ProfileLoaded r => (s, if initialLoadComplete s then [] else initApp_resume r)
  | DateSelect date => (s, handleDateSelect date)
  | ContentUpdate updatedFields => (s, handleContentUpdate s updatedFields)
  | MarkComplete => (s, toggleComplete s)
  | ThemeChange newTheme => (s, handleThemeChange newTheme)
  | SearchInput q => (s, [setSearchQuery q])
  | Online => (with_onLine true s, handleOnline)
  | Offline => (with_onLine false s, handleOffline)
  | FetchSettles i reply =>
      match nth_error (fetches s) i with
      | Some f =>
          (with_fetches (removeNth i (fetches s)) s,
           loadContent_resume (fetchKey f)
             (fetchDevotionalForDate JSON_parse (fetchDateStr f) reply))
      | None => (s, [])
      end
  | SaveSettles i saved =>
      match nth_error (saves s) i with
      | Some _ =>
          (with_saves (removeNth i (saves s)) s,
           persistChanges_resume (onLine s) saved)
      | None => (s, [])
      end
  end.

(** Everything an event makes the component do: the handler, then the
    effects of the render that follows. *)
Definition trace (s : State) (e : Event) : list Cmd :=
  let (s0, done) := dispatch s e in
  done ++ effects s0 (run done s0) done.

Definition step (s : State) (e : Event) : State :=
  let (s0, done) := dispatch s e in
  let s1 := run done s0 in
  run (effects s0 s1 done) s1.

Definition steps (s : State) (es : list Event) : State := fold_left step es s.
End WithHost.

(** The displayed record is the cached record of the selected date
    whenever the load is in the success state. *)
Definition displayedIsCached (s : State) : Prop :=
  loadingState s = SUCCESS ->
  exists c,
    content s = Some c /\ get (cache s) (toDateString (currentDate s)) = Some c.

(** The [date] of a record is what [formatDateFull] writes for some day. *)
Definition dated (c : DevotionalContent) : Prop :=
  exists d : JsDate, date c = formatDateFull d.

(** The event is not an edit of the [date] of the displayed record. *)
Definition keepsDate (e : Event) : Prop :=
  match e with
  | ContentUpdate updatedFields => date' updatedFields = None
  | _ => True
  end.

(** A command that brings no record or fetch without such a date. *)
Definition cmdDated (c : Cmd) : Prop :=
  match c with
  | setContent (Some x) => dated x
  | setCache _ value => dated value
  | callFetch _ dateStr => exists d : JsDate, dateStr = formatDateFull d
  | _ => True
  end.

(** Every record the state holds, cached or displayed, and every pending
    fetch, has such a date. *)
Definition datedState (s : State) : Prop :=
  Forall dated (values (cache s))
  /\ (forall c, content s = Some c -> dated c)
  /\ Forall (fun f => exists d : JsDate, fetchDateStr f = formatDateFull d) (fetches s).

(** The profile an event loads, if it loads one, holds no date twice. *)
Definition loadsNoDuplicates (e : Event) : Prop :=
  match e with
  | ProfileLoaded (Js.Fulfilled profile) =>
      NoDup (Types.completedDates (progress profile))
  | _ => True
  end.

(** *** The first render *)

Definition initial (navigatorOnLine : bool) : State :=
  {| currentDate := {| getFullYear := 2026; getMonth := 0; getDate := 1 |};
     content := None;
     loadingState := IDLE;
     completedDates := [];
     theme := light;
     syncStatus := synced;
     initialLoadComplete := false;
     cache := [];
     isSearchMode := false;
     searchQuery := "";
     onLine := navigatorOnLine;
     fetches := [];
     saves := [] |}.

(** The effects of the first render: [initApp] starts and waits for the
    profile; the connectivity check; the automatic sync returns at once
    ([initialLoadComplete] is false); the current date is loaded. *)
Definition mountEffects (s : State) : list Cmd :=
  (if negb (onLine s) then [setSyncStatus offline] else [])
    ++ loadContent (cache s) (currentDate s).

Definition mount (navigatorOnLine : bool) : State :=
  run (mountEffects (initial navigatorOnLine)) (initial navigatorOnLine).

(** *** Search *)

Section Search.
(** [new Date(s).getTime()]: the time value of the date the host reads
    in [s], NaN when it reads none. *)
Variable Date_getTime : string -> Js.number.

Definition matches (lowerQuery : string) (item : DevotionalContent) : bool :=
  Js.includes (Js.toLowerCase (passageReference item)) lowerQuery
  || Js.includes (Js.toLowerCase (scriptureText item)) lowerQuery
  || Js.includes (Js.toLowerCase (reflection item)) lowerQuery
  || Js.includes (Js.toLowerCase (morningPrayer item)) lowerQuery
  || Js.includes (Js.toLowerCase (eveningPrayer item)) lowerQuery
  || (Js.truthy (relatedVerseReference item)
      && Js.includes (Js.toLowerCase (relatedVerseReference item)) lowerQuery)
  || (Js.truthy (relatedVerseText item)
      && Js.includes (Js.toLowerCase (relatedVerseText item)) lowerQuery).

Definition byDate (a b : DevotionalContent) : Js.number :=
  Js.sub (Date_getTime (date a)) (Date_getTime (date b)).

(** [a] is not after [b]: both dates are read, and in that order. *)
Definition ascendingDate (a b : DevotionalContent) : Prop :=
  Js.le (Date_getTime (date a)) (Date_getTime (date b)).

Definition searchResults (cache : Cache) (searchQuery : string)
  : list DevotionalContent :=
  if negb (Js.truthy (Js.trim searchQuery)) then []
  else
    let lowerQuery := Js.toLowerCase searchQuery in
    Js.sort byDate (filter (matches lowerQuery) (values cache)).
End Search.

End App.

(* ===================================================================== *)
(** ** A host for the examples *)
(* ===================================================================== *)

Module Host.
Import Types DateUtils GeminiService.

Definition doubleQuote : string := String (ascii_of_nat 34) EmptyString.

Definition member (name value : string) : string :=
  doubleQuote ++ name ++ doubleQuote ++ ":" ++ doubleQuote ++ value ++ doubleQuote.

(** [JSON.stringify] of a payload whose strings need no escape. *)
Definition stringify (p : Payload) : string :=
  "{" ++ member "passageReference" (p_passageReference p)
    ++ "," ++ member "scriptureText" (p_scriptureText p)
    ++ "," ++ member "reflection" (p_reflection p)
    ++ "," ++ member "morningPrayer" (p_morningPrayer p)
    ++ "," ++ member "eveningPrayer" (p_eveningPrayer p)
    ++ "," ++ member "quote" (p_quote p)
    ++ "," ++ member "quoteAuthor" (p_quoteAuthor p)
    ++ "," ++ member "relatedVerseReference" (p_relatedVerseReference p)
    ++ "," ++ member "relatedVerseText" (p_relatedVerseText p)
    ++ "}".

Definition genesis : Payload :=
  {| p_passageReference := "Genesis 1-3";
     p_scriptureText := "In the beginning God created the heaven and the earth.";
     p_reflection := "Creation begins with light.";
     p_morningPrayer := "Lord, order my day.";
     p_eveningPrayer := "Lord, I rest in You.";
     p_quote := "Let there be light.";
     p_quoteAuthor := "Genesis 1:3";
     p_relatedVerseReference := "John 1:1";
     p_relatedVerseText := "In the beginning was the Word." |}.

Definition noah : Payload :=
  {| p_passageReference := "Genesis 4-7";
     p_scriptureText := "But Noah found grace in the eyes of the Lord.";
     p_reflection := "Grace meets a faithful walk.";
     p_morningPrayer := "Lord, let me walk with You.";
     p_eveningPrayer := "Lord, shelter my house.";
     p_quote := "Noah walked with God.";
     p_quoteAuthor := "Genesis 6:9";
     p_relatedVerseReference := "Hebrews 11:7";
     p_relatedVerseText := "By faith Noah prepared an ark." |}.

Definition replies : list Payload := [genesis; noah].

(** A [JSON.parse] that reads the texts of [replies] and throws on every
    other text. *)
Definition JSON_parse (jsonText : string) : option Payload :=
  find (fun p => stringify p =? jsonText) replies.

Definition january (day : Z) : JsDate :=
  {| getFullYear := 2026; getMonth := 0; getDate := day |}.

Definition calendar : list JsDate := map january [1; 2; 3; 4; 5; 6; 7]%Z.

(** [date.getTime()] of a local midnight, in a host on universal time. *)
Definition getTime (d : JsDate) : Z :=
  (daysFromCivil (getFullYear d) (getMonth d + 1) (getDate d) * 86400000)%Z.

(** A [new Date(s).getTime()] that reads what [formatDateFull] writes for
    the days of [calendar], and no other string. *)
Definition Date_getTime (s : string) : Js.number :=
  match find (fun d => formatDateFull d =? s) calendar with
  | Some d => Js.Num (getTime d)
  | None => Js.NaN
  end.

(** The record the fetch of [d] makes of the reply [p]. *)
Definition fetched (d : JsDate) (p : Payload) : option DevotionalContent :=
  match fetchDevotionalForDate JSON_parse (formatDateFull d) (Response (Some (stringify p))) with
  | Js.Fulfilled data => Some data
  | Js.Rejected _ => None
  end.

End Host.

(* ===================================================================== *)
(** ** Sessions of the application on that host *)
(* ===================================================================== *)

Module Scenario.
Import Types DateUtils GeminiService App.

Definition jan1 : JsDate := Host.january 1.
Definition jan2 : JsDate := Host.january 2.
Definition jan3 : JsDate := Host.january 3.

Definition reply (p : Payload) : AiReply := Response (Some (Host.stringify p)).

(** The record of January 1, as the fetch makes it from the reply
    [Host.genesis]. *)
Definition genesisRecord : DevotionalContent :=
  {| date := "Thursday, January 1, 2026";
     passageReference := "Genesis 1-3";
     scriptureText := "In the beginning God created the heaven and the earth.";
     reflection := "Creation begins with light.";
     morningPrayer := "Lord, order my day.";
     eveningPrayer := "Lord, I rest in You.";
     quote := "Let there be light.";
     quoteAuthor := "Genesis 1:3";
     relatedVerseReference := "John 1:1";
     relatedVerseText := "In the beginning was the Word.";
     customPassageText := None;
     customRelatedVerseText := None |}.

(** The first render, on line: January 1 is selected and being fetched. *)
Definition started : State := mount true.

(** January 2 is selected while the fetch of January 1 is pending. *)
Definition superseded : State := step Host.JSON_parse started (DateSelect jan2).

(** The fetch of January 1 has resolved while January 1 is selected. *)
Definition loaded : State :=
  step Host.JSON_parse started (FetchSettles 0 (reply Host.genesis)).

(** The profile is loaded and saved; then, off line, a day is marked
    complete and the save of that change fails. *)
Definition saveFailed : State :=
  steps Host.JSON_parse started
    [ProfileLoaded (Js.Fulfilled (SyncService.defaultProfile 0));
     SaveSettles 0 true; Offline; MarkComplete; SaveSettles 0 false].

(** An edit of the passage text only. *)
Definition passageEdit : PartialContent :=
  {| date' := None; passageReference' := None; scriptureText' := None;
     reflection' := None; morningPrayer' := None; eveningPrayer' := None;
     quote' := None; quoteAuthor' := None; relatedVerseReference' := None;
     relatedVerseText' := None;
     customPassageText' := Some (Some "In the beginning, God created.");
     customRelatedVerseText' := None |}.

Definition record (d : JsDate) (p : Payload) : DevotionalContent :=
  match Host.fetched d p with
  | Some data => data
  | None => genesisRecord
  end.

(** A cache that was filled for January 3, then 1, then 2. *)
Definition history : Cache :=
  put (put (put [] (toDateString jan3) (record jan3 Host.noah))
         (toDateString jan1) (record jan1 Host.genesis))
    (toDateString jan2) (record jan2 Host.noah).

(** The pending fetch of a day. *)
Definition fetchOf (d : JsDate) : Fetch :=
  {| fetchKey := toDateString d; fetchDateStr := formatDateFull d |}.

(** The profile of this browser: two days done, last saved at time 1. *)
Definition localProfile : UserProfile :=
  {| preferences := {| Types.theme := sepia |};
     progress := {| Types.completedDates := [toDateString jan2; toDateString jan1] |};
     lastSyncedAt := 1 |}.

(** The profile of another browser: two days done, last saved at time 2. *)
Definition cloudProfile : UserProfile :=
  {| preferences := {| Types.theme := dark |};
     progress := {| Types.completedDates := [toDateString jan3; toDateString jan2] |};
     lastSyncedAt := 2 |}.

End Scenario.

(* ===================================================================== *)
(** ** utils/dateUtils.ts and components/CalendarView.tsx: the month grid *)
(* ===================================================================== *)

Module Calendar.
Import DateUtils.
Local Open Scope Z_scope.

(** The calendar day that is [n] days after 1970-01-01, the inverse of
    [daysFromCivil]. *)
Definition civilFromDays (n : Z) : JsDate :=
  let z := n + 719468 in
  let era := z / 146097 in
  let doe := z - era * 146097 in
  let yoe := (doe - doe / 1460 + doe / 36524 - doe / 146096) / 365 in
  let y := yoe + era * 400 in
  let doy := doe - (365 * yoe + yoe / 4 - yoe / 100) in
  let mp := (5 * doy + 2) / 153 in
  let d := doy - (153 * mp + 2) / 5 + 1 in
  let m := if mp <? 10 then mp + 3 else mp - 9 in
  {| getFullYear := if m <=? 2 then y + 1 else y;
     getMonth := m - 1;
     getDate := d |}.

(** The number of days from 1970-01-01 to the day of [d]. *)
Definition dayNumber (d : JsDate) : Z :=
  daysFromCivil (getFullYear d) (getMonth d + 1) (getDate d).

(** The year the [Date] constructor reads: a year from 0 to 99 counts from
    1900. *)
Definition constructorYear (year : Z) : Z :=
  if (0 <=? year) && (year <=? 99) then 1900 + year else year.

(** [new Date(year, month, day)]: a month outside 0..11 carries into the
    year, a day outside the month counts on from the first of the month.
    The dates are those within the range of [Date], in a time zone whose
    calendar skips no day. *)
Definition newDate (year month day : Z) : JsDate :=
  let ym := constructorYear year + month / 12 in
  let mn := month mod 12 in
  civilFromDays (daysFromCivil ym (mn + 1) 1 + day - 1).

Definition getDaysInMonth (year month : Z) : Z :=
  getDate (newDate year (month + 1) 0).

Definition getFirstDayOfMonth (year month : Z) : Z :=
  getDay (newDate year month 1).

Definition isSameDay (d1 d2 : JsDate) : bool :=
  (getFullYear d1 =? getFullYear d2)
  && (getMonth d1 =? getMonth d2)
  && (getDate d1 =? getDate d2).

(** The values of [i] in [for (let i = n - 1; i >= 0; i--)]. *)
Definition countDown (n : nat) : list Z := map Z.of_nat (rev (seq 0 n)).

(** The values of [i] in [for (let i = 1; i <= n; i++)]. *)
Definition countUp (n : nat) : list Z := map Z.of_nat (seq 1 n).

(** [generateCalendarGrid(year, month, selectedDate)]; the function does not
    look at [selectedDate]. *)
Definition generateCalendarGrid (year month : Z) (selectedDate : JsDate)
  : list JsDate :=
  let firstDayIndex := getFirstDayOfMonth year month in
  let daysInMonth := getDaysInMonth year month in
  let previous :=
    map (fun i => newDate year month (- i)) (countDown (Z.to_nat firstDayIndex)) in
  let current :=
    map (fun i => newDate year month i) (countUp (Z.to_nat daysInMonth)) in
  let days := (previous ++ current)%list in
  let remainingSlots := 42 - Z.of_nat (List.length days) in
  (days ++ map (fun i => newDate year (month + 1) i)
             (countUp (Z.to_nat remainingSlots)))%list.

(** *** CalendarView: the month on view *)

Definition handlePrevMonth (viewDate : JsDate) : JsDate :=
  newDate (getFullYear viewDate) (getMonth viewDate - 1) 1.

Definition handleNextMonth (viewDate : JsDate) : JsDate :=
  newDate (getFullYear viewDate) (getMonth viewDate + 1) 1.

Definition calendarDays (viewDate currentDate : JsDate) : list JsDate :=
  generateCalendarGrid (getFullYear viewDate) (getMonth viewDate) currentDate.

(** A cell is a button that selects its date unless it is disabled, and it
    is disabled when its month is not the month on view. *)
Definition isCurrentMonth (viewDate date : JsDate) : bool :=
  getMonth date =? getMonth viewDate.

(** *** The Gregorian calendar, to state what the grid shows *)

Definition leapYear (y : Z) : bool :=
  (y mod 4 =? 0) && (negb (y mod 100 =? 0) || (y mod 400 =? 0)).

(** The length of month [m], from 1 to 12, of year [y]. *)
Definition monthLength (y m : Z) : Z :=
  if m =? 2 then (if leapYear y then 29 else 28)
  else if (m =? 4) || (m =? 6) || (m =? 9) || (m =? 11) then 30
  else 31.

(** A month the calendar can be on: a full year that the constructor reads
    as it is, within the range of [Date], and a month from 0 to 11. *)
Definition onView (year month : Z) : Prop :=
  100 <= year <= 275000 /\ 0 <= month <= 11.

(** The [n] numbers that follow one another from [a]. *)
Definition consecutive (a : Z) (n : nat) : list Z :=
  map (fun k => a + Z.of_nat k) (seq 0 n).

End Calendar.

(* ===================================================================== *)
(** ** components/DevotionalDisplay.tsx: editing *)
(* ===================================================================== *)

Module DevotionalDisplay.

(** The section being edited: the value of [editingSection] when it is not
    null. *)
Inductive EditingSection : Type :=
| reflection | morningPrayer | eveningPrayer | passageText | relatedVerse.

(** The edit state of the component: [editingSection] and [tempText]. *)
Record EditState : Type := {
  editingSection : option EditingSection;
  tempText : string
}.

(** [{}]. *)
Definition noFields : Types.PartialContent :=
  {| Types.date' := None; Types.passageReference' := None;
     Types.scriptureText' := None; Types.reflection' := None;
     Types.morningPrayer' := None; Types.eveningPrayer' := None;
     Types.quote' := None; Types.quoteAuthor' := None;
     Types.relatedVerseReference' := None; Types.relatedVerseText' := None;
     Types.customPassageText' := None; Types.customRelatedVerseText' := None |}.

(** The [update] object [saveEdit] builds in its [switch]. *)
Definition updateOf (section : EditingSection) (text : string) : Types.PartialContent :=
  match section with
  | reflection =>
      {| Types.date' := None; Types.passageReference' := None;
         Types.scriptureText' := None; Types.reflection' := Some text;
         Types.morningPrayer' := None; Types.eveningPrayer' := None;
         Types.quote' := None; Types.quoteAuthor' := None;
         Types.relatedVerseReference' := None; Types.relatedVerseText' := None;
         Types.customPassageText' := None; Types.customRelatedVerseText' := None |}
  | morningPrayer =>
      {| Types.date' := None; Types.passageReference' := None;
         Types.scriptureText' := None; Types.reflection' := None;
         Types.morningPrayer' := Some text; Types.eveningPrayer' := None;
         Types.quote' := None; Types.quoteAuthor' := None;
         Types.relatedVerseReference' := None; Types.relatedVerseText' := None;
         Types.customPassageText' := None; Types.customRelatedVerseText' := None |}
  | eveningPrayer =>
      {| Types.date' := None; Types.passageReference' := None;
         Types.scriptureText' := None; Types.reflection' := None;
         Types.morningPrayer' := None; Types.eveningPrayer' := Some text;
         Types.quote' := None; Types.quoteAuthor' := None;
         Types.relatedVerseReference' := None; Types.relatedVerseText' := None;
         Types.customPassageText' := None; Types.customRelatedVerseText' := None |}
  | passageText =>
      {| Types.date' := None; Types.passageReference' := None;
         Types.scriptureText' := None; Types.reflection' := None;
         Types.morningPrayer' := None; Types.eveningPrayer' := None;
         Types.quote' := None; Types.quoteAuthor' := None;
         Types.relatedVerseReference' := None; Types.relatedVerseText' := None;
         Types.customPassageText' := Some (Some text);
         Types.customRelatedVerseText' := None |}
  | relatedVerse =>
      {| Types.date' := None; Types.passageReference' := None;
         Types.scriptureText' := None; Types.reflection' := None;
         Types.morningPrayer' := None; Types.eveningPrayer' := None;
         Types.quote' := None; Types.quoteAuthor' := None;
         Types.relatedVerseReference' := None; Types.relatedVerseText' := None;
         Types.customPassageText' := None;
         Types.customRelatedVerseText' := Some (Some text) |}
  end.


Definition cancelEdit : EditState := {| editingSection := None; tempText := "" |}.

(** [saveEdit()]: the argument of the call of [onUpdateContent], if it makes
    one, and the edit state it leaves. *)
Definition saveEdit (st : EditState) : option Types.PartialContent * EditState :=
  match editingSection st with
  | Some section =>
      (Some (updateOf section (tempText st)),
       {| editingSection := None; tempText := "" |})
  | None => (None, st)
  end.

(** The property of the record a section edits. *)
Definition fieldOf (section : EditingSection) : Types.Field :=
  match section with
  | reflection => Types.Freflection
  | morningPrayer => Types.FmorningPrayer
  | eveningPrayer => Types.FeveningPrayer
  | passageText => Types.FcustomPassageText
  | relatedVerse => Types.FcustomRelatedVerseText
  end.


End DevotionalDisplay.

(* ===================================================================== *)
(** ** What the sessions keep *)
(* ===================================================================== *)

Module Session.
Import Types App.

(** The status says synced or syncing only while the browser is on line. *)
Definition statusFollowsConnection (s : State) : Prop :=
  syncStatus s = synced \/ syncStatus s = syncing -> onLine s = true.

(** A command that does not set the status to synced or syncing unless
    [navigatorOnLine] holds. *)
Definition statusCmd (navigatorOnLine : bool) (c : Cmd) : Prop :=
  match c with
  | setSyncStatus synced | setSyncStatus syncing => navigatorOnLine = true
  | _ => True
  end.

(** The number of pending fetches for [key]. *)
Definition pendingFor (key : string) (s : State) : nat :=
  List.length (filter (fun f => fetchKey f =? key) (fetches s)).

End Session.

(* ===================================================================== *)
(** ** Properties of the host library *)
(* ===================================================================== *)

Open Scope list_scope.

Section SetFacts.

Lemma arrayIncludes_In (arr : list string) (x : string) :
  Js.arrayIncludes arr x = true <-> In x arr.
Proof.
  unfold Js.arrayIncludes. rewrite existsb_exists. split.
  - intros [y [Hy Heq]]. apply String.eqb_eq in Heq. now subst.
  - intros H. exists x. split; [assumption | apply String.eqb_refl].
Qed.

Lemma arrayIncludes_not_In (arr : list string) (x : string) :
  Js.arrayIncludes arr x = false <-> ~ In x arr.
Proof.
  rewrite <- arrayIncludes_In. destruct (Js.arrayIncludes arr x); split; congruence.
Qed.

Lemma Set_add_In (s : list string) (x y : string) :
  In y (Js.Set_add s x) <-> In y s \/ y = x.
Proof.
  unfold Js.Set_add. destruct (Js.arrayIncludes s x) eqn:E.
  - apply arrayIncludes_In in E. split; [now left | intros [H | ->]; assumption].
  - rewrite in_app_iff. simpl. split; intros [H | H]; auto.
    + destruct H as [-> | []]. now right.
Qed.

Lemma Set_add_NoDup (s : list string) (x : string) :
  NoDup s -> NoDup (Js.Set_add s x).
Proof.
  intros Hs. unfold Js.Set_add. destruct (Js.arrayIncludes s x) eqn:E; [assumption |].
  apply arrayIncludes_not_In in E.
  apply NoDup_rev in Hs. rewrite <- (rev_involutive (s ++ [x])).
  apply NoDup_rev. rewrite rev_app_distr. simpl.
  constructor; [now rewrite <- in_rev | assumption].
Qed.

Lemma fold_Set_add_In (l acc : list string) (y : string) :
  In y (fold_left Js.Set_add l acc) <-> In y acc \/ In y l.
Proof.
  revert acc. induction l as [| x l IH]; intros acc; simpl.
  - tauto.
  - rewrite IH, Set_add_In. intuition congruence.
Qed.

Lemma fold_Set_add_NoDup (l acc : list string) :
  NoDup acc -> NoDup (fold_left Js.Set_add l acc).
Proof.
  revert acc. induction l as [| x l IH]; intros acc Hacc; simpl.
  - assumption.
  - apply IH, Set_add_NoDup, Hacc.
Qed.

(** The elements of [new Set(l)] are those of [l]. *)
Lemma Set_new_In (l : list string) (y : string) : In y (Js.Set_new l) <-> In y l.
Proof. unfold Js.Set_new. rewrite fold_Set_add_In. simpl. tauto. Qed.

(** A [Set] holds no element twice. *)
Lemma Set_new_NoDup (l : list string) : NoDup (Js.Set_new l).
Proof. apply fold_Set_add_NoDup. constructor. Qed.

Lemma fold_Set_add_id (l acc : list string) :
  NoDup (acc ++ l) -> fold_left Js.Set_add l acc = acc ++ l.
Proof.
  revert acc. induction l as [| x l IH]; intros acc H; simpl.
  - now rewrite app_nil_r.
  - assert (Hx : Js.arrayIncludes acc x = false).
    { apply arrayIncludes_not_In. intros Hin.
      apply NoDup_remove_2 in H. apply H. apply in_or_app. now left. }
    unfold Js.Set_add at 2. rewrite Hx.
    replace (acc ++ x :: l) with ((acc ++ [x]) ++ l) in * by now rewrite <- app_assoc.
    now apply IH.
Qed.

(** An array without duplicates goes through [new Set] unchanged. *)
Lemma Set_new_NoDup_id (l : list string) : NoDup l -> Js.Set_new l = l.
Proof. intros H. unfold Js.Set_new. now rewrite fold_Set_add_id. Qed.

Lemma cardinality_incl (l m : list string) :
  incl l m -> Js.cardinality l <= Js.cardinality m.
Proof.
  intros H. unfold Js.cardinality. apply NoDup_incl_length.
  - apply Set_new_NoDup.
  - intros x Hx. apply Set_new_In. apply H. now apply Set_new_In.
Qed.

Lemma cardinality_NoDup (l : list string) :
  NoDup l -> Js.cardinality l = List.length l.
Proof. intros H. unfold Js.cardinality. now rewrite Set_new_NoDup_id. Qed.

End SetFacts.

(* ===================================================================== *)
(** ** syncService.ts: [mergeProfiles] *)
(* ===================================================================== *)

Section MergeProfiles.
Import Types SyncService.

Variable now : Z.
Variables local cloud : UserProfile.

Let dates (p : UserProfile) : list string := completedDates (progress p).
Let merged : list string := dates (mergeProfiles now local cloud).

Lemma merged_In (d : string) :
  In d merged <-> In d (dates local) \/ In d (dates cloud).
Proof.
  unfold merged, dates, mergeProfiles, Js.Array_from. simpl.
  rewrite Set_new_In. apply in_app_iff.
Qed.

Lemma merged_NoDup : NoDup merged.
Proof. unfold merged, dates, mergeProfiles, Js.Array_from. simpl. apply Set_new_NoDup. Qed.

End MergeProfiles.

(** C5. For every pair of profiles, the completed dates of
    [mergeProfiles now local cloud] are exactly the dates of [local] together
    with the dates of [cloud]: the merged array contains every date of either
    side, and it holds at least as many distinct dates as either input (and
    at least as many entries as an input that has no duplicates). *)
Theorem mergeProfiles_completedDates_union :
  forall (now : Z) (local cloud : Types.UserProfile),
    let dates := fun p => Types.completedDates (Types.progress p) in
    let merged := dates (SyncService.mergeProfiles now local cloud) in
    (forall d, In d merged <-> In d (dates local) \/ In d (dates cloud))
    /\ incl (dates local) merged
    /\ incl (dates cloud) merged
    /\ Js.cardinality (dates local) <= Js.cardinality merged
    /\ Js.cardinality (dates cloud) <= Js.cardinality merged
    /\ Js.cardinality merged = List.length merged
    /\ (NoDup (dates local) -> List.length (dates local) <= List.length merged)
    /\ (NoDup (dates cloud) -> List.length (dates cloud) <= List.length merged).
Proof.
  intros now local cloud dates merged.
  assert (Hin : forall d, In d merged <-> In d (dates local) \/ In d (dates cloud))
    by apply merged_In.
  assert (Hl : incl (dates local) merged) by (intros d Hd; apply Hin; now left).
  assert (Hc : incl (dates cloud) merged) by (intros d Hd; apply Hin; now right).
  assert (Hnd : NoDup merged) by apply merged_NoDup.
  split; [assumption |]. split; [assumption |]. split; [assumption |].
  split; [| split; [| split; [| split]]].
  - now apply cardinality_incl.
  - now apply cardinality_incl.
  - now apply cardinality_NoDup.
  - intros H. now apply NoDup_incl_length.
  - intros H. now apply NoDup_incl_length.
Qed.

(** C6. [mergeProfiles now local cloud] takes the theme of [cloud] when
    [cloud]'s [lastSyncedAt] is strictly greater than [local]'s, and the
    theme of [local] otherwise; in particular on equal timestamps. *)
Theorem mergeProfiles_theme :
  forall (now : Z) (local cloud : Types.UserProfile),
    let merged := Types.theme (Types.preferences (SyncService.mergeProfiles now local cloud)) in
    ((Types.lastSyncedAt cloud > Types.lastSyncedAt local)%Z ->
       merged = Types.theme (Types.preferences cloud))
    /\ ((Types.lastSyncedAt cloud <= Types.lastSyncedAt local)%Z ->
       merged = Types.theme (Types.preferences local))
    /\ (Types.lastSyncedAt cloud = Types.lastSyncedAt local ->
       merged = Types.theme (Types.preferences local)).
Proof.
  intros now local cloud merged. subst merged.
  unfold SyncService.mergeProfiles. simpl.
  destruct (Z.gtb_spec (Types.lastSyncedAt cloud) (Types.lastSyncedAt local)) as [Hgt | Hle].
  - split; [| split]; intros; [reflexivity | lia | lia].
  - split; [| split]; intros; [lia | reflexivity | reflexivity].
Qed.

(* ===================================================================== *)
(** ** App.tsx: the cache object *)
(* ===================================================================== *)

Arguments DateUtils.toDateString : simpl never.
Arguments DateUtils.formatDateFull : simpl never.

Section CacheFacts.
Import Types App.

Lemma get_put_eq (c : Cache) (key : string) (v : DevotionalContent) :
  get (put c key v) key = Some v.
Proof.
  induction c as [| [k x] r IH]; simpl.
  - now rewrite String.eqb_refl.
  - destruct (k =? key)%string eqn:E; simpl; rewrite E; [reflexivity | exact IH].
Qed.

Lemma get_put_ne (c : Cache) (key k : string) (v : DevotionalContent) :
  k <> key -> get (put c key v) k = get c k.
Proof.
  intros Hne. induction c as [| [k0 x] r IH]; simpl.
  - destruct (String.eqb_spec key k); [congruence | reflexivity].
  - destruct (String.eqb_spec k0 key) as [-> | Hk]; simpl.
    + destruct (String.eqb_spec key k); [congruence | reflexivity].
    + destruct (String.eqb_spec k0 k); [reflexivity | exact IH].
Qed.

Lemma get_put (c : Cache) (key k : string) (v : DevotionalContent) :
  get (put c key v) k = if (key =? k)%string then Some v else get c k.
Proof.
  destruct (String.eqb_spec key k) as [-> | Hne].
  - apply get_put_eq.
  - apply get_put_ne. congruence.
Qed.

Lemma run_app (a b : list Cmd) (s : State) : run (a ++ b) s = run b (run a s).
Proof. unfold run. apply fold_left_app. Qed.

Lemma Theme_eqb_refl (t : Theme) : Theme_eqb t t = true.
Proof. now destruct t. Qed.

End CacheFacts.

(* ===================================================================== *)
(** ** App.tsx: selecting a date and loading its content *)
(* ===================================================================== *)

Section LoadContent.
Import Types DateUtils GeminiService App.

Variable JSON_parse : string -> option Payload.

Local Abbreviation step := (App.step JSON_parse).
Local Abbreviation trace := (App.trace JSON_parse).

(** The state is what running the trace makes of it. *)
Lemma step_trace (s : State) (e : Event) :
  step s e = run (trace s e) (fst (dispatch JSON_parse s e)).
Proof.
  unfold App.step, App.trace. destruct (dispatch JSON_parse s e) as [s0 done].
  simpl. now rewrite run_app.
Qed.

Lemma trace_DateSelect (s : State) (d : JsDate) :
  trace s (DateSelect d) = handleDateSelect d ++ loadContent (cache s) d.
Proof.
  unfold App.trace, effects, syncEffect, loadEffect. destruct s; simpl.
  now rewrite Theme_eqb_refl, Bool.eqb_reflx.
Qed.

Lemma trace_FetchSettles (s : State) (i : nat) (reply : AiReply) (f : Fetch) :
  nth_error (fetches s) i = Some f ->
  trace s (FetchSettles i reply) =
    let done := loadContent_resume (fetchKey f)
                  (fetchDevotionalForDate JSON_parse (fetchDateStr f) reply) in
    done ++ (if existsb setsCache done
             then loadContent (cache (run done s)) (currentDate s)
             else []).
Proof.
  intros Hf. unfold App.trace, dispatch. rewrite Hf.
  unfold effects, syncEffect, loadEffect.
  destruct (fetchDevotionalForDate JSON_parse (fetchDateStr f) reply) as [data | e];
    destruct s; simpl; now rewrite Theme_eqb_refl, Bool.eqb_reflx.
Qed.

Lemma failed_fetch_rejects (dateStr : string) (reply : AiReply) :
  FailedReply JSON_parse reply ->
  exists e, fetchDevotionalForDate JSON_parse dateStr reply = Js.Rejected e.
Proof.
  intros H. destruct H as [| | | jsonText Hparse]; simpl; eauto.
  destruct (negb (Js.truthy jsonText)); [eauto |]. rewrite Hparse. eauto.
Qed.

Lemma trace_DateSelect_cached (s : State) (d : JsDate) (c : DevotionalContent) :
  get (cache s) (toDateString d) = Some c ->
  trace s (DateSelect d) =
    [setCurrentDate d; setIsSearchMode false; setSearchQuery "";
     setContent (Some c); setLoadingState SUCCESS].
Proof. intros Hc. rewrite trace_DateSelect. unfold loadContent. now rewrite Hc. Qed.

Lemma step_DateSelect_cached (s : State) (d : JsDate) (c : DevotionalContent) :
  get (cache s) (toDateString d) = Some c ->
  let s' := step s (DateSelect d) in
  content s' = Some c
  /\ loadingState s' = SUCCESS
  /\ fetches s' = fetches s
  /\ cache s' = cache s
  /\ currentDate s' = d.
Proof.
  intros Hc s'. subst s'. rewrite step_trace, (trace_DateSelect_cached s d c Hc).
  destruct s; simpl. repeat split.
Qed.

(** C2. Selecting a date whose key is in the cache calls no fetch and never
    sets the loading state: the handler and the effect that follows set the
    cached record as the content and the state to success, and nothing
    else of the load changes. *)
Theorem cached_date_is_not_fetched :
  forall (s : State) (d : JsDate) (c : DevotionalContent),
    get (cache s) (toDateString d) = Some c ->
    let s' := step s (DateSelect d) in
    trace s (DateSelect d) =
      [setCurrentDate d; setIsSearchMode false; setSearchQuery "";
       setContent (Some c); setLoadingState SUCCESS]
    /\ (forall key dateStr, ~ In (callFetch key dateStr) (trace s (DateSelect d)))
    /\ ~ In (setLoadingState LOADING) (trace s (DateSelect d))
    /\ content s' = Some c
    /\ loadingState s' = SUCCESS
    /\ fetches s' = fetches s
    /\ cache s' = cache s
    /\ currentDate s' = d.
Proof.
  intros s d c Hc s'.
  assert (Ht : trace s (DateSelect d) =
               [setCurrentDate d; setIsSearchMode false; setSearchQuery "";
                setContent (Some c); setLoadingState SUCCESS])
    by now apply trace_DateSelect_cached.
  split; [exact Ht |].
  split. { intros key dateStr Hin. rewrite Ht in Hin. simpl in Hin.
           repeat (destruct Hin as [Hin | Hin]; [discriminate |]). exact Hin. }
  split. { intros Hin. rewrite Ht in Hin. simpl in Hin.
           repeat (destruct Hin as [Hin | Hin]; [discriminate |]). exact Hin. }
  now apply step_DateSelect_cached.
Qed.

Lemma dispatch_FetchSettles (s : State) (i : nat) (reply : AiReply) (f : Fetch) :
  nth_error (fetches s) i = Some f ->
  dispatch JSON_parse s (FetchSettles i reply) =
    (with_fetches (removeNth i (fetches s)) s,
     loadContent_resume (fetchKey f)
       (fetchDevotionalForDate JSON_parse (fetchDateStr f) reply)).
Proof. intros Hf. unfold dispatch. now rewrite Hf. Qed.

(** A fetch that fails, whenever it settles, sets the error state and
    nothing else. *)
Lemma failed_fetch_step (t : State) (i : nat) (reply : AiReply) (f : Fetch) :
  nth_error (fetches t) i = Some f ->
  FailedReply JSON_parse reply ->
  trace t (FetchSettles i reply) = [setLoadingState ERROR]
  /\ loadingState (step t (FetchSettles i reply)) = ERROR
  /\ cache (step t (FetchSettles i reply)) = cache t
  /\ content (step t (FetchSettles i reply)) = content t.
Proof.
  intros Hf Hfail.
  destruct (failed_fetch_rejects (fetchDateStr f) reply Hfail) as [e He].
  assert (Ht : trace t (FetchSettles i reply) = [setLoadingState ERROR]).
  { rewrite (trace_FetchSettles t i reply f Hf), He. reflexivity. }
  split; [exact Ht |].
  rewrite step_trace, Ht, (dispatch_FetchSettles t i reply f Hf).
  destruct t; simpl. repeat split.
Qed.

(** Selecting a date that is not in the cache sets the loading state and
    leaves one more fetch pending, for the key of that date. *)
Lemma uncached_date_is_fetched (s : State) (d : JsDate) :
  get (cache s) (toDateString d) = None ->
  let s1 := step s (DateSelect d) in
  loadingState s1 = LOADING
  /\ fetches s1 =
       fetches s ++ [{| fetchKey := toDateString d; fetchDateStr := formatDateFull d |}]
  /\ cache s1 = cache s
  /\ content s1 = content s.
Proof.
  intros Hc s1. subst s1. rewrite step_trace, trace_DateSelect.
  unfold loadContent. rewrite Hc. destruct s; simpl. repeat split.
Qed.

(** C9. Selecting a date that is not cached sets the loading state and
    starts its fetch; when that fetch rejects, or returns an empty or
    unparseable text, the continuation only sets the error state: the
    cache after the failed fetch is the cache before it. *)
Theorem failed_fetch_writes_no_cache :
  forall (s : State) (d : JsDate) (reply : AiReply),
    get (cache s) (toDateString d) = None ->
    FailedReply JSON_parse reply ->
    let s1 := step s (DateSelect d) in
    let f := {| fetchKey := toDateString d; fetchDateStr := formatDateFull d |} in
    loadingState s1 = LOADING
    /\ nth_error (fetches s1) (List.length (fetches s)) = Some f
    /\ cache s1 = cache s
    /\ forall (t : State) (i : nat),
         nth_error (fetches t) i = Some f ->
         let t' := step t (FetchSettles i reply) in
         trace t (FetchSettles i reply) = [setLoadingState ERROR]
         /\ (forall key value, ~ In (setCache key value) (trace t (FetchSettles i reply)))
         /\ loadingState t' = ERROR
         /\ cache t' = cache t.
Proof.
  intros s d reply Hc Hfail s1 f.
  destruct (uncached_date_is_fetched s d Hc) as (Hl & Hf & Hcache & _).
  fold s1 in Hl, Hf, Hcache.
  split; [exact Hl |]. split.
  { rewrite Hf, nth_error_app2 by lia. now rewrite Nat.sub_diag. }
  split; [exact Hcache |].
  intros t i Hi t'.
  destruct (failed_fetch_step t i reply f Hi Hfail) as (Ht & Hl' & Hc' & _).
  split; [exact Ht |]. split.
  { intros key value Hin. rewrite Ht in Hin. simpl in Hin.
    destruct Hin as [Hin | []]. discriminate. }
  split; assumption.
Qed.

(** C1, as the code has it. When a fetch for a key [A] resolves while the
    selected date has another key [B], the result is written to the cache
    under [A] and the entry of every other key, [B] included, is the same
    as before. The result is not discarded: the continuation sets it as
    the content and sets the success state. The cache has changed, so the
    load effect runs again for the selected date: when [B] is cached its
    record is displayed again, when it is not the result for [A] stays as
    the content, the loading state is set and [B] is fetched anew. *)
Theorem stale_fetch_is_applied :
  forall (s : State) (i : nat) (f : Fetch) (reply : AiReply) (data : DevotionalContent),
    nth_error (fetches s) i = Some f ->
    fetchKey f <> toDateString (currentDate s) ->
    fetchDevotionalForDate JSON_parse (fetchDateStr f) reply = Js.Fulfilled data ->
    let A := fetchKey f in
    let B := toDateString (currentDate s) in
    let s' := step s (FetchSettles i reply) in
    get (cache s') B = get (cache s) B
    /\ get (cache s') A = Some data
    /\ (forall k, k <> A -> get (cache s') k = get (cache s) k)
    /\ In (setContent (Some data)) (trace s (FetchSettles i reply))
    /\ content s' = match get (cache s) B with
                    | Some c => Some c
                    | None => Some data
                    end
    /\ loadingState s' = match get (cache s) B with
                         | Some _ => SUCCESS
                         | None => LOADING
                         end.
Proof.
  intros s i f reply data Hf Hne Hdata A B s'.
  assert (Ht : trace s (FetchSettles i reply) =
               [setCache A data; setContent (Some data); setLoadingState SUCCESS]
               ++ loadContent (put (cache s) A data) (currentDate s)).
  { rewrite (trace_FetchSettles s i reply f Hf), Hdata. simpl.
    destruct s; reflexivity. }
  assert (HB : get (put (cache s) A data) B = get (cache s) B).
  { apply get_put_ne. subst A B. congruence. }
  assert (Hs : s' = run (trace s (FetchSettles i reply))
                      (with_fetches (removeNth i (fetches s)) s)).
  { subst s'. now rewrite step_trace, (dispatch_FetchSettles s i reply f Hf). }
  rewrite Ht in Hs |- *. unfold loadContent in Hs. fold B in Hs. rewrite HB in Hs.
  assert (Hcache : cache s' = put (cache s) A data).
  { rewrite Hs. destruct (get (cache s) B); destruct s; reflexivity. }
  split; [now rewrite Hcache |].
  split; [rewrite Hcache; apply get_put_eq |].
  split; [intros k Hk; rewrite Hcache; now apply get_put_ne |].
  split; [simpl; auto |].
  rewrite Hs. destruct (get (cache s) B); destruct s; simpl; split; reflexivity.
Qed.

End LoadContent.

(* ===================================================================== *)
(** ** App.tsx: editing the displayed record *)
(* ===================================================================== *)

Section ContentUpdate.
Import Types DateUtils GeminiService App.

Variable JSON_parse : string -> option Payload.

Local Abbreviation step := (App.step JSON_parse).
Local Abbreviation trace := (App.trace JSON_parse).

(** A property of [{ ...c, ...f }] is the one [f] supplies, or else the
    one of [c]. *)
Lemma field_spread (y : Field) (c : DevotionalContent) (f : PartialContent) :
  field y (spread c f) = override (field y c) (supplied y f).
Proof.
  destruct y; simpl; unfold override;
    match goal with |- context [match ?o with _ => _ end] => now destruct o end.
Qed.

Lemma trace_ContentUpdate (s : State) (f : PartialContent) (c : DevotionalContent) :
  content s = Some c ->
  let u := spread c f in
  trace s (ContentUpdate f) =
    [setContent (Some u); setCache (toDateString (currentDate s)) u;
     setContent (Some u); setLoadingState SUCCESS].
Proof.
  intros Hc u. unfold App.trace, dispatch, handleContentUpdate. rewrite Hc.
  fold u. unfold effects, syncEffect, loadEffect, loadContent.
  destruct s; simpl. rewrite Theme_eqb_refl, Bool.eqb_reflx. simpl.
  now rewrite get_put_eq.
Qed.

Lemma step_ContentUpdate (s : State) (f : PartialContent) (c : DevotionalContent) :
  content s = Some c ->
  let u := spread c f in
  let s' := step s (ContentUpdate f) in
  content s' = Some u
  /\ cache s' = put (cache s) (toDateString (currentDate s)) u
  /\ fetches s' = fetches s.
Proof.
  intros Hc u s'. subst s'.
  rewrite step_trace, (trace_ContentUpdate s f c Hc).
  destruct s; simpl. repeat split.
Qed.

(** In the success state the displayed record is the cached record of the
    selected date: every event keeps it so. *)
Lemma step_displayedIsCached (s : State) (e : Event) :
  displayedIsCached s -> displayedIsCached (step s e).
Proof.
  intros Hinv.
  destruct e as [r | d | updatedFields | | newTheme | q | | | i reply | i saved].
  - (* ProfileLoaded *)
    unfold displayedIsCached, App.step, dispatch, effects, syncEffect, loadEffect in *.
    destruct s; simpl in *.
    destruct initialLoadComplete0; simpl; [now rewrite Theme_eqb_refl |].
    destruct r; simpl; rewrite ?orb_true_r; simpl; exact Hinv.
  - (* DateSelect *)
    destruct (get (cache s) (toDateString d)) as [c |] eqn:Hc.
    + destruct (step_DateSelect_cached JSON_parse s d c Hc)
        as (Hcontent & _ & _ & Hcache & Hdate).
      intros _. exists c. now rewrite Hcontent, Hcache, Hdate.
    + destruct (uncached_date_is_fetched JSON_parse s d Hc) as (Hl & _).
      intros H. rewrite Hl in H. discriminate.
  - (* ContentUpdate *)
    destruct (content s) as [c |] eqn:Hc.
    + destruct (step_ContentUpdate s updatedFields c Hc) as (Hcontent & Hcache & _).
      intros _. exists (spread c updatedFields). split; [exact Hcontent |].
      rewrite Hcache.
      replace (currentDate (step s (ContentUpdate updatedFields))) with (currentDate s).
      * apply get_put_eq.
      * rewrite step_trace, (trace_ContentUpdate s updatedFields c Hc).
        destruct s; reflexivity.
    + assert (Hs : step s (ContentUpdate updatedFields) = s).
      { unfold App.step, dispatch, handleContentUpdate. rewrite Hc.
        unfold effects, syncEffect, loadEffect. destruct s; simpl.
        now rewrite Theme_eqb_refl, Bool.eqb_reflx. }
      now rewrite Hs.
  - (* MarkComplete *)
    unfold displayedIsCached, App.step, dispatch, effects, syncEffect, loadEffect in *.
    destruct s; simpl in *. rewrite orb_true_r. simpl.
    destruct initialLoadComplete0; exact Hinv.
  - (* ThemeChange *)
    unfold displayedIsCached, App.step, dispatch, effects, syncEffect, loadEffect in *.
    destruct s; simpl in *. rewrite Bool.eqb_reflx, ?orb_false_r.
    destruct (Theme_eqb theme0 newTheme); simpl; [exact Hinv |].
    destruct initialLoadComplete0; exact Hinv.
  - (* SearchInput *)
    unfold displayedIsCached, App.step, dispatch, effects, syncEffect, loadEffect in *.
    destruct s; simpl in *. rewrite Theme_eqb_refl, Bool.eqb_reflx. exact Hinv.
  - (* Online *)
    unfold displayedIsCached, App.step, dispatch, effects, syncEffect, loadEffect in *.
    destruct s; simpl in *. rewrite Theme_eqb_refl, Bool.eqb_reflx. exact Hinv.
  - (* Offline *)
    unfold displayedIsCached, App.step, dispatch, effects, syncEffect, loadEffect in *.
    destruct s; simpl in *. rewrite Theme_eqb_refl, Bool.eqb_reflx. exact Hinv.
  - (* FetchSettles *)
    destruct (nth_error (fetches s) i) as [f |] eqn:Hf.
    + unfold displayedIsCached. rewrite step_trace.
      rewrite (trace_FetchSettles JSON_parse s i reply f Hf).
      rewrite (dispatch_FetchSettles JSON_parse s i reply f Hf).
      destruct (fetchDevotionalForDate JSON_parse (fetchDateStr f) reply) as [data | err].
      * cbn [loadContent_resume existsb setsCache orb fst]. unfold loadContent.
        replace (cache (run [setCache (fetchKey f) data; setContent (Some data);
                             setLoadingState SUCCESS] s))
          with (put (cache s) (fetchKey f) data) by (destruct s; reflexivity).
        destruct (get (put (cache s) (fetchKey f) data) (toDateString (currentDate s)))
          as [c |] eqn:Hc.
        -- intros _. exists c. destruct s; simpl in *. auto.
        -- destruct s; simpl. discriminate.
      * destruct s; simpl. discriminate.
    + unfold App.step, dispatch. rewrite Hf.
      unfold effects, syncEffect, loadEffect. destruct s; simpl in *.
      now rewrite Theme_eqb_refl, Bool.eqb_reflx.
  - (* SaveSettles *)
    unfold displayedIsCached, App.step, dispatch, effects, syncEffect, loadEffect in *.
    destruct (nth_error (saves s) i); destruct s; simpl in *.
    + destruct saved; [destruct onLine0 |]; simpl;
        rewrite Theme_eqb_refl, Bool.eqb_reflx; exact Hinv.
    + rewrite Theme_eqb_refl, Bool.eqb_reflx. exact Hinv.
Qed.

Lemma steps_displayedIsCached (es : list Event) (s : State) :
  displayedIsCached s -> displayedIsCached (steps JSON_parse s es).
Proof.
  revert s. induction es as [| e es IH]; intros s Hs; simpl.
  - exact Hs.
  - apply IH, step_displayedIsCached, Hs.
Qed.

(** From the first render on, whatever happens, a session in the success
    state displays the cached record of the selected date. *)
Lemma session_displayedIsCached (navigatorOnLine : bool) (es : list Event) :
  displayedIsCached (steps JSON_parse (mount navigatorOnLine) es).
Proof.
  apply steps_displayedIsCached. destruct navigatorOnLine; discriminate.
Qed.

(** C3. When the displayed record is the cached record of the selected
    date, an update that supplies the single property [x] leaves in the
    cache, under the same key, a record that has the supplied value at [x]
    and the prior value at every other property; the entries of the other
    keys are unchanged, and no fetch is started. *)
Theorem update_changes_only_its_field :
  forall (s : State) (c : DevotionalContent) (f : PartialContent) (x : Field),
    content s = Some c ->
    get (cache s) (toDateString (currentDate s)) = Some c ->
    suppliesOnly x f ->
    let key := toDateString (currentDate s) in
    let s' := step s (ContentUpdate f) in
    exists c',
      get (cache s') key = Some c'
      /\ content s' = Some c'
      /\ supplied x f = Some (field x c')
      /\ (forall y, y <> x -> field y c' = field y c)
      /\ (forall k, k <> key -> get (cache s') k = get (cache s) k)
      /\ fetches s' = fetches s.
Proof.
  intros s c f x Hc Hcached [Hx Hother] key s'.
  destruct (step_ContentUpdate s f c Hc) as (Hcontent & Hcache & Hfetches).
  fold s' key in Hcontent, Hcache, Hfetches.
  exists (spread c f).
  split; [rewrite Hcache; apply get_put_eq |].
  split; [exact Hcontent |].
  split.
  { rewrite field_spread. destruct (supplied x f); [reflexivity | contradiction]. }
  split.
  { intros y Hy. rewrite field_spread, (Hother y Hy). reflexivity. }
  split; [| exact Hfetches].
  intros k Hk. rewrite Hcache. now apply get_put_ne.
Qed.

(** C4, as the code has it. With no record loaded ([content] is null) an
    update is ignored: the handler returns at once, no state is set and
    the state after the event is the state before it. With a record
    displayed the update is applied and stored under the key of the
    selected date, also when that key was absent from the cache. *)
Theorem update_without_content_is_ignored :
  forall (s : State) (f : PartialContent),
    (content s = None ->
       trace s (ContentUpdate f) = [] /\ step s (ContentUpdate f) = s)
    /\ (forall c, content s = Some c ->
          get (cache (step s (ContentUpdate f))) (toDateString (currentDate s))
            = Some (spread c f)).
Proof.
  intros s f. split.
  - intros Hc.
    assert (Ht : trace s (ContentUpdate f) = []).
    { unfold App.trace, dispatch, handleContentUpdate. rewrite Hc.
      unfold effects, syncEffect, loadEffect. destruct s; simpl.
      now rewrite Theme_eqb_refl, Bool.eqb_reflx. }
    split; [exact Ht |]. rewrite step_trace, Ht. reflexivity.
  - intros c Hc. destruct (step_ContentUpdate s f c Hc) as (_ & Hcache & _).
    rewrite Hcache. apply get_put_eq.
Qed.

End ContentUpdate.

(* ===================================================================== *)
(** ** App.tsx: connectivity and progress *)
(* ===================================================================== *)

Section SyncAndProgress.
Import Types DateUtils GeminiService App.

Variable JSON_parse : string -> option Payload.

Local Abbreviation step := (App.step JSON_parse).
Local Abbreviation trace := (App.trace JSON_parse).

(** C8, as the code has it. On the window's [online] event the handler
    sets the status to synced and does nothing else, whatever the status
    was and whatever saves are pending: a prior error status becomes
    synced as well. *)
Theorem online_sets_synced :
  forall (s : State),
    trace s Online = [setSyncStatus synced]
    /\ syncStatus (step s Online) = synced
    /\ onLine (step s Online) = true
    /\ saves (step s Online) = saves s.
Proof.
  intros s.
  assert (Ht : trace s Online = [setSyncStatus synced]).
  { unfold App.trace, dispatch, effects, syncEffect, loadEffect, handleOnline.
    destruct s; simpl. now rewrite Theme_eqb_refl, Bool.eqb_reflx. }
  split; [exact Ht |]. rewrite step_trace, Ht. destruct s; simpl. repeat split.
Qed.

Lemma run_keeps_completedDates (cmds : list Cmd) (s : State) :
  (forall c, In c cmds -> setsCompletedDates c = false) ->
  completedDates (run cmds s) = completedDates s.
Proof.
  revert s. induction cmds as [| c r IH]; intros s H; simpl.
  - reflexivity.
  - unfold run in *. simpl. rewrite IH by (intros; apply H; now right).
    specialize (H c (or_introl eq_refl)).
    destruct c; try discriminate; destruct s; reflexivity.
Qed.

(** No effect sets the completed dates. *)
Lemma effects_keep_completedDates (before after : State) (done : list Cmd) (c : Cmd) :
  In c (effects before after done) -> setsCompletedDates c = false.
Proof.
  unfold effects, syncEffect, loadEffect, persistChanges, loadContent.
  intros H. apply in_app_or in H. destruct H as [H | H].
  - destruct (_ || _ || _); [| contradiction].
    destruct (negb (initialLoadComplete after)); [contradiction |].
    destruct H as [<- | [<- | []]]; reflexivity.
  - destruct (_ || _); [| contradiction].
    destruct (get _ _); destruct H as [<- | [<- | []]]; reflexivity.
Qed.

(** The completed dates after an event are those the handler leaves. *)
Lemma step_completedDates_handler (s : State) (e : Event) :
  completedDates (step s e) =
    completedDates (run (snd (dispatch JSON_parse s e)) (fst (dispatch JSON_parse s e))).
Proof.
  unfold App.step. destruct (dispatch JSON_parse s e) as [s0 done]. simpl.
  apply run_keeps_completedDates. intros c. apply effects_keep_completedDates.
Qed.

(** The completed dates after an event: a loaded profile brings its own,
    a toggle sets the toggled array, and no other event touches them. *)
Lemma step_completedDates (s : State) (e : Event) :
  completedDates (step s e) =
    match e with
    | ProfileLoaded (Js.Fulfilled profile) =>
        if initialLoadComplete s then completedDates s
        else Types.completedDates (progress profile)
    | MarkComplete =>
        let key := toDateString (currentDate s) in
        if Js.arrayIncludes (completedDates s) key
        then filter (fun d => negb (d =? key)%string) (completedDates s)
        else completedDates s ++ [key]
    | _ => completedDates s
    end.
Proof.
  rewrite step_completedDates_handler.
  destruct e as [r | d | updatedFields | | newTheme | q | | | i reply | i saved];
    unfold dispatch.
  - destruct r; destruct s; simpl; now destruct initialLoadComplete0.
  - destruct s; reflexivity.
  - unfold handleContentUpdate. destruct (content s); destruct s; reflexivity.
  - destruct s; reflexivity.
  - destruct s; reflexivity.
  - destruct s; reflexivity.
  - destruct s; reflexivity.
  - destruct s; reflexivity.
  - destruct (nth_error (fetches s) i) as [f |]; [| reflexivity].
    destruct (fetchDevotionalForDate JSON_parse (fetchDateStr f) reply);
      destruct s; reflexivity.
  - destruct (nth_error (saves s) i); [| reflexivity].
    unfold persistChanges_resume. destruct saved, (onLine s); destruct s; reflexivity.
Qed.

(** Every event keeps the completed dates free of duplicates, as long as the
    profile that is loaded has none. *)
Lemma step_completedDates_NoDup (s : State) (e : Event) :
  loadsNoDuplicates e ->
  NoDup (completedDates s) -> NoDup (completedDates (step s e)).
Proof.
  intros He Hs. rewrite step_completedDates.
  destruct e as [[profile | err] | | | | | | | | |]; simpl in *; try exact Hs.
  - now destruct (initialLoadComplete s).
  - destruct (Js.arrayIncludes (completedDates s) (toDateString (currentDate s))) eqn:E.
    + now apply NoDup_filter.
    + apply arrayIncludes_not_In in E.
      apply NoDup_rev in Hs. rewrite <- (rev_involutive (_ ++ _)).
      apply NoDup_rev. rewrite rev_app_distr. simpl.
      constructor; [now rewrite <- in_rev | assumption].
Qed.

(** C10. A completion toggle keeps the completed dates free of
    duplicates: it appends the key of the selected date when the array
    does not hold it, and otherwise removes every occurrence of it and
    nothing else. The completed dates of [mergeProfiles] have no
    duplicates, whatever the inputs. *)
Theorem completedDates_stay_duplicate_free :
  forall (s : State) (now : Z) (local cloud : UserProfile),
    let key := toDateString (currentDate s) in
    let s' := step s MarkComplete in
    (NoDup (completedDates s) -> NoDup (completedDates s'))
    /\ (~ In key (completedDates s) -> completedDates s' = completedDates s ++ [key])
    /\ (In key (completedDates s) ->
          ~ In key (completedDates s')
          /\ forall d, d <> key -> In d (completedDates s') <-> In d (completedDates s))
    /\ NoDup (Types.completedDates (progress (SyncService.mergeProfiles now local cloud))).
Proof.
  intros s now local cloud key s'.
  assert (Hs : completedDates s' =
               if Js.arrayIncludes (completedDates s) key
               then filter (fun d => negb (d =? key)%string) (completedDates s)
               else completedDates s ++ [key])
    by apply (step_completedDates s MarkComplete).
  split; [| split; [| split]].
  - intros Hnd. rewrite Hs.
    destruct (Js.arrayIncludes (completedDates s) key) eqn:E.
    + now apply NoDup_filter.
    + apply arrayIncludes_not_In in E.
      apply NoDup_rev in Hnd. rewrite <- (rev_involutive (_ ++ _)).
      apply NoDup_rev. rewrite rev_app_distr. simpl.
      constructor; [now rewrite <- in_rev | assumption].
  - intros Hnot. apply arrayIncludes_not_In in Hnot. now rewrite Hs, Hnot.
  - intros Hin. apply arrayIncludes_In in Hin. rewrite Hs, Hin. split.
    + rewrite filter_In. intros [_ H]. now rewrite String.eqb_refl in H.
    + intros d Hd. rewrite filter_In. split; [tauto |].
      intros H. split; [exact H |].
      apply negb_true_iff. now apply String.eqb_neq.
  - apply merged_NoDup.
Qed.

End SyncAndProgress.

(* ===================================================================== *)
(** ** App.tsx: the dates of the records *)
(* ===================================================================== *)

Section Dates.
Import Types DateUtils GeminiService App.

Variable JSON_parse : string -> option Payload.

Local Abbreviation step := (App.step JSON_parse).

Lemma values_put_dated (c : Cache) (key : string) (v : DevotionalContent) :
  dated v -> Forall dated (values c) -> Forall dated (values (put c key v)).
Proof.
  intros Hv. unfold values. induction c as [| [k x] r IH]; simpl; intros Hc.
  - now constructor.
  - inversion Hc as [| ? ? Hx Hr]; subst.
    destruct (k =? key)%string; simpl; constructor; auto.
Qed.

Lemma get_dated (c : Cache) (key : string) (v : DevotionalContent) :
  Forall dated (values c) -> get c key = Some v -> dated v.
Proof.
  unfold values. induction c as [| [k x] r IH]; simpl; intros Hc Hget.
  - discriminate.
  - inversion Hc as [| ? ? Hx Hr]; subst.
    destruct (k =? key)%string; [now inversion Hget; subst | now apply IH].
Qed.

(** The record of a fetch has the date string the fetch was called with. *)
Lemma fetched_date (dateStr : string) (reply : AiReply) (data : DevotionalContent) :
  fetchDevotionalForDate JSON_parse dateStr reply = Js.Fulfilled data ->
  date data = dateStr.
Proof.
  unfold fetchDevotionalForDate. destruct reply as [| [jsonText |]]; try discriminate.
  destruct (negb (Js.truthy jsonText)); try discriminate.
  destruct (JSON_parse jsonText); try discriminate.
  intros H. now inversion H.
Qed.

Lemma exec_dated (c : Cmd) (s : State) :
  cmdDated c -> datedState s -> datedState (exec c s).
Proof.
  intros Hc (Hcache & Hcontent & Hfetches).
  destruct c as [d | [x |] | l | l | t | st | b | key value | b | q | key dateStr | t l];
    destruct s; simpl in *; repeat split; auto; try discriminate.
  - intros c Heq. now inversion Heq; subst.
  - now apply values_put_dated.
  - apply Forall_app. split; [assumption | now repeat constructor].
Qed.

Lemma run_dated (cmds : list Cmd) (s : State) :
  Forall cmdDated cmds -> datedState s -> datedState (run cmds s).
Proof.
  revert s. induction cmds as [| c r IH]; intros s Hcmds Hs; simpl.
  - exact Hs.
  - inversion Hcmds; subst. unfold run in *. simpl. apply IH; [assumption |].
    now apply exec_dated.
Qed.

Lemma loadContent_dated (s : State) :
  datedState s -> Forall cmdDated (loadContent (cache s) (currentDate s)).
Proof.
  intros (Hcache & _ & _). unfold loadContent.
  destruct (get (cache s) (toDateString (currentDate s))) as [c |] eqn:Hc.
  - repeat constructor. simpl.
    now apply (get_dated (cache s) (toDateString (currentDate s)) c).
  - repeat constructor. simpl. now exists (currentDate s).
Qed.

Lemma effects_dated (before after : State) (done : list Cmd) :
  datedState after -> Forall cmdDated (effects before after done).
Proof.
  intros Hafter. unfold effects. apply Forall_app. split.
  - unfold syncEffect, persistChanges.
    destruct (_ || _ || _); [| constructor].
    destruct (negb (initialLoadComplete after)); repeat constructor.
  - unfold loadEffect. destruct (_ || _); [| constructor].
    now apply loadContent_dated.
Qed.

Lemma removeNth_Forall {A : Type} (P : A -> Prop) (i : nat) (l : list A) :
  Forall P l -> Forall P (removeNth i l).
Proof.
  unfold removeNth. revert l. induction i as [| i IH]; intros [| x l] H; simpl.
  - constructor.
  - now inversion H.
  - constructor.
  - inversion H; subst. constructor; [assumption | now apply IH].
Qed.

Lemma dispatch_dated (s : State) (e : Event) :
  keepsDate e -> datedState s ->
  datedState (fst (dispatch JSON_parse s e))
  /\ Forall cmdDated (snd (dispatch JSON_parse s e)).
Proof.
  intros He Hs. pose proof Hs as (Hcache & Hcontent & Hfetches).
  destruct e as [r | d | updatedFields | | newTheme | q | | | i reply | i saved];
    unfold dispatch.
  - split; [exact Hs |]. simpl.
    destruct (initialLoadComplete s); [constructor |].
    destruct r; repeat constructor.
  - split; [exact Hs | repeat constructor].
  - split; [exact Hs |]. simpl. unfold handleContentUpdate.
    destruct (content s) as [c |] eqn:Hc; [| constructor].
    assert (Hd : dated (spread c updatedFields)).
    { destruct (Hcontent c eq_refl) as [d Hd]. exists d. simpl in *.
      now rewrite He. }
    repeat constructor; exact Hd.
  - split; [exact Hs | repeat constructor].
  - split; [exact Hs | repeat constructor].
  - split; [exact Hs | repeat constructor].
  - split; [destruct s; exact Hs | repeat constructor].
  - split; [destruct s; exact Hs | repeat constructor].
  - destruct (nth_error (fetches s) i) as [f |] eqn:Hf; [| split; [exact Hs | constructor]].
    split.
    + destruct s; simpl in *. repeat split; auto. now apply removeNth_Forall.
    + simpl. unfold loadContent_resume.
      destruct (fetchDevotionalForDate JSON_parse (fetchDateStr f) reply) as [data | err]
        eqn:Hdata; [| repeat constructor].
      assert (Hd : dated data).
      { rewrite Forall_forall in Hfetches.
        destruct (Hfetches f (nth_error_In _ _ Hf)) as [d Hd].
        exists d. now rewrite (fetched_date _ _ _ Hdata). }
      repeat constructor; exact Hd.
  - destruct (nth_error (saves s) i); [| split; [exact Hs | constructor]].
    split; [destruct s; exact Hs |]. simpl. unfold persistChanges_resume.
    destruct saved, (onLine s); repeat constructor.
Qed.

Lemma step_dated (s : State) (e : Event) :
  keepsDate e -> datedState s -> datedState (step s e).
Proof.
  intros He Hs. destruct (dispatch_dated s e He Hs) as [H0 Hdone].
  unfold App.step. destruct (dispatch JSON_parse s e) as [s0 done]. simpl in *.
  apply run_dated; [apply effects_dated |]; now apply run_dated.
Qed.

(** In a session where no edit rewrites a date, every cached record has the
    date [formatDateFull] wrote when it was fetched. *)
Lemma session_dated (navigatorOnLine : bool) (es : list Event) :
  Forall keepsDate es ->
  datedState (steps JSON_parse (mount navigatorOnLine) es).
Proof.
  assert (H0 : datedState (mount navigatorOnLine)).
  { unfold mount. apply run_dated.
    - unfold mountEffects. apply Forall_app. split.
      + destruct (negb _); repeat constructor.
      + apply loadContent_dated. repeat split; try constructor; discriminate.
    - repeat split; try constructor; discriminate. }
  revert H0. generalize (mount navigatorOnLine).
  induction es as [| e es IH]; intros s Hs Hes; simpl.
  - exact Hs.
  - inversion Hes; subst. apply IH; [now apply step_dated | assumption].
Qed.

End Dates.

(* ===================================================================== *)
(** ** App.tsx: search *)
(* ===================================================================== *)

Section SortFacts.
Context {A : Type} (comparefn : A -> A -> Js.number).

Lemma insert_Permutation (x : A) (l : list A) :
  Permutation (Js.insert comparefn x l) (x :: l).
Proof.
  induction l as [| y r IH]; simpl.
  - apply Permutation_refl.
  - destruct (Js.positive (comparefn x y)).
    + eapply perm_trans; [apply perm_skip, IH | apply perm_swap].
    + apply Permutation_refl.
Qed.

(** Sorting loses and adds no element. *)
Lemma sort_Permutation (l : list A) : Permutation (Js.sort comparefn l) l.
Proof.
  induction l as [| x r IH]; simpl.
  - apply perm_nil.
  - eapply perm_trans; [apply insert_Permutation | apply perm_skip, IH].
Qed.

(** An ordering the comparator decides on the elements that satisfy [ok]:
    when the comparator does not send [x] after [y], [x] is not after [y],
    and when it does, [y] is not after [x]. *)
Variable ok : A -> Prop.
Variable R : A -> A -> Prop.
Hypothesis R_trans : forall x y z, R x y -> R y z -> R x z.
Hypothesis R_before :
  forall x y, ok x -> ok y -> Js.positive (comparefn x y) = false -> R x y.
Hypothesis R_after :
  forall x y, ok x -> ok y -> Js.positive (comparefn x y) = true -> R y x.

Lemma insert_sorted (x : A) (l : list A) :
  ok x -> Forall ok l -> StronglySorted R l ->
  StronglySorted R (Js.insert comparefn x l).
Proof.
  intros Hx Hl Hs. induction Hs as [| y r Hs IH Hy]; simpl.
  - constructor; constructor.
  - inversion Hl as [| ? ? Hoky Hokr]; subst.
    destruct (Js.positive (comparefn x y)) eqn:E.
    + constructor; [now apply IH |].
      apply Forall_forall. intros z Hz.
      apply (Permutation_in _ (insert_Permutation x r)) in Hz.
      destruct Hz as [<- | Hz].
      * now apply R_after.
      * rewrite Forall_forall in Hy. now apply Hy.
    + assert (Hxy : R x y) by now apply R_before.
      constructor; [now constructor |].
      constructor; [exact Hxy |].
      apply Forall_forall. intros z Hz. rewrite Forall_forall in Hy.
      apply (R_trans x y z Hxy). now apply Hy.
Qed.

Lemma sort_sorted (l : list A) :
  Forall ok l -> StronglySorted R (Js.sort comparefn l).
Proof.
  induction l as [| x r IH]; intros Hl; simpl.
  - constructor.
  - inversion Hl as [| ? ? Hx Hr]; subst.
    apply insert_sorted; [exact Hx | | now apply IH].
    apply Forall_forall. intros z Hz.
    apply (Permutation_in _ (sort_Permutation r)) in Hz.
    rewrite Forall_forall in Hr. now apply Hr.
Qed.

End SortFacts.

Section Search.
Import Types App.

Variable Date_getTime : string -> Js.number.

Local Abbreviation time := (fun item => Date_getTime (date item)).

Lemma ascendingDate_trans (x y z : DevotionalContent) :
  ascendingDate Date_getTime x y -> ascendingDate Date_getTime y z ->
  ascendingDate Date_getTime x z.
Proof.
  unfold ascendingDate, Js.le.
  destruct (time x), (time y), (time z); try tauto. lia.
Qed.

Lemma byDate_before (x y : DevotionalContent) :
  Js.isNaN (time x) = false -> Js.isNaN (time y) = false ->
  Js.positive (byDate Date_getTime x y) = false -> ascendingDate Date_getTime x y.
Proof.
  unfold ascendingDate, byDate, Js.le, Js.sub, Js.positive, Js.isNaN.
  destruct (time x), (time y); try discriminate. intros _ _ H.
  apply Z.ltb_ge in H. lia.
Qed.

Lemma byDate_after (x y : DevotionalContent) :
  Js.isNaN (time x) = false -> Js.isNaN (time y) = false ->
  Js.positive (byDate Date_getTime x y) = true -> ascendingDate Date_getTime y x.
Proof.
  unfold ascendingDate, byDate, Js.le, Js.sub, Js.positive, Js.isNaN.
  destruct (time x), (time y); try discriminate. intros _ _ H.
  apply Z.ltb_lt in H. lia.
Qed.

(** Sorting by date puts records whose dates the host reads in ascending
    order of those dates. *)
Lemma sort_byDate_sorted (l : list DevotionalContent) :
  Forall (fun item => Js.isNaN (time item) = false) l ->
  StronglySorted (ascendingDate Date_getTime) (Js.sort (byDate Date_getTime) l).
Proof.
  apply sort_sorted.
  - apply ascendingDate_trans.
  - apply byDate_before.
  - apply byDate_after.
Qed.

(** C7. When the host reads a date in the [date] of every cached entry
    that matches, the entries [searchResults] returns are in ascending
    order of those dates; for a query that is not blank they are the
    matching entries of the cache, each as often as it is there. *)
Theorem searchResults_sorted_by_date :
  forall (cache : Cache) (searchQuery : string),
    (forall item,
       In item (values cache) ->
       matches (Js.toLowerCase searchQuery) item = true ->
       Js.isNaN (Date_getTime (date item)) = false) ->
    StronglySorted (ascendingDate Date_getTime)
      (searchResults Date_getTime cache searchQuery)
    /\ (Js.trim searchQuery <> ""%string ->
         Permutation (searchResults Date_getTime cache searchQuery)
           (filter (matches (Js.toLowerCase searchQuery)) (values cache))).
Proof.
  intros cache q Hvalid. unfold searchResults, Js.truthy.
  destruct (String.eqb_spec (Js.trim q) "") as [Hblank | Hquery]; simpl.
  - split; [constructor | contradiction].
  - split; [| intros _; apply sort_Permutation].
    apply sort_byDate_sorted.
    apply Forall_forall. intros item Hin. apply filter_In in Hin.
    destruct Hin as [Hin Hm]. now apply Hvalid.
Qed.

(** On a host that reads what [formatDateFull] writes, in a session where
    no edit rewrites a date, every search is in ascending order of date. *)
Lemma session_search_sorted (JSON_parse : string -> option GeminiService.Payload)
    (navigatorOnLine : bool) (es : list Event) (searchQuery : string) :
  (forall d, Js.isNaN (Date_getTime (DateUtils.formatDateFull d)) = false) ->
  Forall keepsDate es ->
  StronglySorted (ascendingDate Date_getTime)
    (searchResults Date_getTime
       (cache (steps JSON_parse (mount navigatorOnLine) es)) searchQuery).
Proof.
  intros Hhost Hes.
  destruct (session_dated JSON_parse navigatorOnLine es Hes) as (Hcache & _ & _).
  unfold searchResults. destruct (negb _); [constructor |].
  apply sort_byDate_sorted.
  apply Forall_forall. intros item Hin. apply filter_In in Hin.
  destruct Hin as [Hin _]. rewrite Forall_forall in Hcache.
  destruct (Hcache item Hin) as [d Hd]. rewrite Hd. apply Hhost.
Qed.

End Search.


(* ===================================================================== *)
(** ** The sessions, run *)
(* ===================================================================== *)

Section Sessions.
Import Types DateUtils GeminiService App Scenario.

Local Abbreviation step := (App.step Host.JSON_parse).
Local Abbreviation trace := (App.trace Host.JSON_parse).

Example started_is_loading :
  loadingState started = LOADING
  /\ fetches started =
       [{| fetchKey := "Thu Jan 01 2026"; fetchDateStr := "Thursday, January 1, 2026" |}].
Proof. split; reflexivity. Qed.

(** The first load ends in the success state with the record cached under
    the key of January 1. *)
Example loaded_is_cached :
  loadingState loaded = SUCCESS
  /\ content loaded = Some genesisRecord
  /\ cache loaded = [("Thu Jan 01 2026", genesisRecord)]
  /\ fetches loaded = [].
Proof. repeat split. Qed.

(** Marking a day complete twice gives back the completed dates. *)
Example toggle_twice :
  completedDates (step loaded MarkComplete) = ["Thu Jan 01 2026"]
  /\ completedDates (step (step loaded MarkComplete) MarkComplete) = [].
Proof. split; reflexivity. Qed.

Example search_history :
  map date (searchResults Host.Date_getTime history "GENESIS") =
    ["Thursday, January 1, 2026"; "Friday, January 2, 2026"; "Saturday, January 3, 2026"]
  /\ map date (searchResults Host.Date_getTime history "found grace") =
    ["Friday, January 2, 2026"; "Saturday, January 3, 2026"]
  /\ searchResults Host.Date_getTime history "   " = [].
Proof. repeat split. Qed.

(** C1: January 2 is selected and the fetch of January 1 is still pending;
    when it resolves, the content, which was null, is the record of
    January 1. *)
Lemma stale_fetch_alters_content :
  nth_error (fetches superseded) 0 =
    Some {| fetchKey := "Thu Jan 01 2026"; fetchDateStr := "Thursday, January 1, 2026" |}
  /\ toDateString (currentDate superseded) = "Fri Jan 02 2026"%string
  /\ content superseded = None
  /\ content (step superseded (FetchSettles 0 (reply Host.genesis))) = Some genesisRecord
  /\ content (step superseded (FetchSettles 0 (reply Host.genesis))) <> content superseded
  /\ currentDate (step superseded (FetchSettles 0 (reply Host.genesis))) = jan2.
Proof. repeat split. discriminate. Qed.

Lemma stale_fetch_is_applied_witness :
  let s' := step superseded (FetchSettles 0 (reply Host.genesis)) in
  get (cache s') "Fri Jan 02 2026" = get (cache superseded) "Fri Jan 02 2026"
  /\ get (cache s') "Thu Jan 01 2026" = Some genesisRecord
  /\ content s' = Some genesisRecord
  /\ loadingState s' = LOADING.
Proof.
  destruct (stale_fetch_is_applied Host.JSON_parse superseded 0
              {| fetchKey := "Thu Jan 01 2026";
                 fetchDateStr := "Thursday, January 1, 2026" |}
              (reply Host.genesis) genesisRecord)
    as (HB & HA & _ & _ & Hcontent & Hloading).
  - reflexivity.
  - discriminate.
  - reflexivity.
  - split; [exact HB |]. split; [exact HA |]. split; [exact Hcontent | exact Hloading].
Defined.

Lemma cached_date_is_not_fetched_witness :
  get (cache loaded) (toDateString jan1) = Some genesisRecord
  /\ loadingState (step loaded (DateSelect jan1)) = SUCCESS
  /\ content (step loaded (DateSelect jan1)) = Some genesisRecord
  /\ fetches (step loaded (DateSelect jan1)) = fetches loaded.
Proof.
  assert (H : get (cache loaded) (toDateString jan1) = Some genesisRecord)
    by reflexivity.
  destruct (cached_date_is_not_fetched Host.JSON_parse loaded jan1 genesisRecord H)
    as (_ & _ & _ & Hcontent & Hloading & Hfetches & _).
  split; [exact H |]. split; [exact Hloading |]. split; [exact Hcontent | exact Hfetches].
Defined.

Lemma update_changes_only_its_field_witness :
  exists c',
    get (cache (step loaded (ContentUpdate passageEdit))) "Thu Jan 01 2026" = Some c'
    /\ content (step loaded (ContentUpdate passageEdit)) = Some c'
    /\ supplied FcustomPassageText passageEdit = Some (field FcustomPassageText c')
    /\ (forall y, y <> FcustomPassageText -> field y c' = field y genesisRecord)
    /\ (forall k, k <> "Thu Jan 01 2026"%string ->
          get (cache (step loaded (ContentUpdate passageEdit))) k = get (cache loaded) k)
    /\ fetches (step loaded (ContentUpdate passageEdit)) = fetches loaded.
Proof.
  apply (update_changes_only_its_field Host.JSON_parse loaded genesisRecord
           passageEdit FcustomPassageText).
  - reflexivity.
  - reflexivity.
  - split; [discriminate |].
    intros y Hy. destruct y; try reflexivity. now contradiction Hy.
Defined.

(** C4: with no record loaded and an empty cache, an update does nothing
    at all; it does not fail. *)
Lemma update_without_content_does_not_fail :
  content started = None
  /\ get (cache started) (toDateString (currentDate started)) = None
  /\ trace started (ContentUpdate passageEdit) = []
  /\ step started (ContentUpdate passageEdit) = started.
Proof. repeat split. Qed.

(** C8: the status is error and no save is pending; the [online] event
    makes it synced. *)
Lemma online_resolves_error :
  syncStatus saveFailed = error
  /\ saves saveFailed = []
  /\ onLine saveFailed = false
  /\ syncStatus (step saveFailed Online) = synced.
Proof. repeat split. Qed.

Lemma failed_fetch_writes_no_cache_witness :
  let text := "I am sorry, I cannot help with that."%string in
  let s1 := step loaded (DateSelect jan2) in
  let s2 := step s1 (FetchSettles 0 (Response (Some text))) in
  get (cache loaded) (toDateString jan2) = None
  /\ FailedReply Host.JSON_parse (Response (Some text))
  /\ loadingState s1 = LOADING
  /\ loadingState s2 = ERROR
  /\ cache s2 = cache loaded.
Proof.
  intros text s1 s2.
  assert (Habsent : get (cache loaded) (toDateString jan2) = None) by reflexivity.
  assert (Hfail : FailedReply Host.JSON_parse (Response (Some text)))
    by (apply failed_unparseable; reflexivity).
  destruct (failed_fetch_writes_no_cache Host.JSON_parse loaded jan2
              (Response (Some text)) Habsent Hfail)
    as (Hloading & Hpending & Hcache & Hsettles).
  destruct (Hsettles s1 0 Hpending) as (_ & _ & Herror & Hsame).
  split; [exact Habsent |]. split; [exact Hfail |]. split; [exact Hloading |].
  split; [exact Herror |]. fold s1 in Hcache. unfold s2. now rewrite <- Hcache.
Defined.

Lemma searchResults_sorted_by_date_witness :
  StronglySorted (ascendingDate Host.Date_getTime)
    (searchResults Host.Date_getTime history "Genesis")
  /\ (Js.trim "Genesis" <> ""%string ->
       Permutation (searchResults Host.Date_getTime history "Genesis")
         (filter (matches (Js.toLowerCase "Genesis")) (values history))).
Proof.
  apply (searchResults_sorted_by_date Host.Date_getTime history "Genesis").
  intros item Hin _. simpl in Hin.
  destruct Hin as [<- | [<- | [<- | []]]]; reflexivity.
Defined.

End Sessions.

(* ===================================================================== *)
(** ** geminiService.ts: what the fetch resolves with *)
(* ===================================================================== *)

Section Fetch.
Import Types GeminiService.

Variable JSON_parse : string -> option Payload.


End Fetch.

(* ===================================================================== *)
(** ** App.tsx: loading, continued *)
(* ===================================================================== *)

Section Loading.
Import Types DateUtils GeminiService App Session.

Variable JSON_parse : string -> option Payload.

Local Abbreviation step := (App.step JSON_parse).
Local Abbreviation trace := (App.trace JSON_parse).
Local Abbreviation steps := (App.steps JSON_parse).

Lemma step_FetchSettles_fulfilled (s : State) (i : nat) (f : Fetch)
    (reply : AiReply) (data : DevotionalContent) :
  nth_error (fetches s) i = Some f ->
  fetchDevotionalForDate JSON_parse (fetchDateStr f) reply = Js.Fulfilled data ->
  step s (FetchSettles i reply) =
    run ([setCache (fetchKey f) data; setContent (Some data); setLoadingState SUCCESS]
           ++ loadContent (put (cache s) (fetchKey f) data) (currentDate s))
      (with_fetches (removeNth i (fetches s)) s).
Proof.
  intros Hf Hdata.
  rewrite step_trace, (trace_FetchSettles JSON_parse s i reply f Hf),
    (dispatch_FetchSettles JSON_parse s i reply f Hf), Hdata.
  destruct s; reflexivity.
Qed.


Lemma filter_removeNth {A : Type} (P : A -> bool) (i : nat) (l : list A) (x : A) :
  nth_error l i = Some x -> P x = false ->
  filter P (removeNth i l) = filter P l.
Proof.
  unfold removeNth. revert l. induction i as [| i IH]; intros [| y l] H Hx;
    simpl in *; try discriminate.
  - inversion H; subst. now rewrite Hx.
  - rewrite (IH l H Hx). reflexivity.
Qed.

(** X3. When a fetch for another date resolves while the selected date is
    not cached, the selected date is fetched again: one more fetch for its
    key is pending than before, whether or not one was pending already. *)
Theorem cache_change_refetches_selected_date :
  forall (s : State) (i : nat) (f : Fetch) (reply : AiReply) (data : DevotionalContent),
    nth_error (fetches s) i = Some f ->
    fetchKey f <> toDateString (currentDate s) ->
    get (cache s) (toDateString (currentDate s)) = None ->
    fetchDevotionalForDate JSON_parse (fetchDateStr f) reply = Js.Fulfilled data ->
    let B := toDateString (currentDate s) in
    let s' := step s (FetchSettles i reply) in
    fetches s' =
      removeNth i (fetches s)
        ++ [{| fetchKey := B; fetchDateStr := formatDateFull (currentDate s) |}]
    /\ pendingFor B s' = S (pendingFor B s).
Proof.
  intros s i f reply data Hf Hne Hnone Hdata B s'. subst s'.
  rewrite (step_FetchSettles_fulfilled s i f reply data Hf Hdata).
  unfold loadContent. fold B. rewrite get_put_ne by (subst B; congruence).
  fold B in Hnone. rewrite Hnone.
  assert (Hf' : (fetchKey f =? B)%string = false) by now apply String.eqb_neq.
  unfold pendingFor. destruct s; simpl in *. split; [reflexivity |].
  rewrite filter_app, length_app. simpl. rewrite String.eqb_refl. simpl.
  rewrite (filter_removeNth _ i fetches0 f Hf Hf'). lia.
Qed.

Lemma step_DateSelect_uncached (s : State) (d : JsDate) :
  get (cache s) (toDateString d) = None ->
  step s (DateSelect d) =
    run (handleDateSelect d
           ++ [setLoadingState LOADING; callFetch (toDateString d) (formatDateFull d)]) s.
Proof.
  intros Hc. rewrite step_trace, trace_DateSelect. unfold loadContent. now rewrite Hc.
Qed.

(** X4. An update made right after an uncached date is selected, while its
    fetch is pending, takes the record that is still displayed, that of the
    date selected before, and stores it, edited, under the key of the new
    date; the state becomes success with that record displayed. When the
    pending fetch then resolves, its record replaces the stored one, edit
    included. *)
Theorem update_while_loading_is_filed_under_the_new_date :
  forall (s : State) (c : DevotionalContent) (d : JsDate) (f : PartialContent),
    content s = Some c ->
    get (cache s) (toDateString d) = None ->
    let s1 := step s (DateSelect d) in
    let s2 := step s1 (ContentUpdate f) in
    loadingState s1 = LOADING
    /\ content s1 = Some c
    /\ get (cache s2) (toDateString d) = Some (spread c f)
    /\ content s2 = Some (spread c f)
    /\ loadingState s2 = SUCCESS
    /\ nth_error (fetches s2) (List.length (fetches s)) =
         Some {| fetchKey := toDateString d; fetchDateStr := formatDateFull d |}
    /\ forall reply data,
         fetchDevotionalForDate JSON_parse (formatDateFull d) reply = Js.Fulfilled data ->
         let s3 := step s2 (FetchSettles (List.length (fetches s)) reply) in
         get (cache s3) (toDateString d) = Some data /\ content s3 = Some data.
Proof.
  intros s c d f Hc Hnone s1 s2.
  assert (H1 : s1 = run (handleDateSelect d
                           ++ [setLoadingState LOADING;
                               callFetch (toDateString d) (formatDateFull d)]) s)
    by now apply step_DateSelect_uncached.
  assert (Hc1 : content s1 = Some c) by (rewrite H1; destruct s; exact Hc).
  assert (Hd1 : currentDate s1 = d) by (rewrite H1; destruct s; reflexivity).
  assert (Hf1 : fetches s1 =
                fetches s ++ [{| fetchKey := toDateString d;
                                 fetchDateStr := formatDateFull d |}])
    by (rewrite H1; destruct s; reflexivity).
  assert (H2 : s2 = run (trace s1 (ContentUpdate f)) s1)
    by (unfold s2; now rewrite step_trace).
  rewrite (trace_ContentUpdate JSON_parse s1 f c Hc1), Hd1 in H2.
  assert (Hcache2 : cache s2 = put (cache s1) (toDateString d) (spread c f))
    by (rewrite H2; destruct s1; reflexivity).
  assert (Hf2 : nth_error (fetches s2) (List.length (fetches s)) =
                Some {| fetchKey := toDateString d; fetchDateStr := formatDateFull d |}).
  { replace (fetches s2) with (fetches s1) by (rewrite H2; destruct s1; reflexivity).
    rewrite Hf1, nth_error_app2 by lia. now rewrite Nat.sub_diag. }
  assert (Hd2 : currentDate s2 = d) by (rewrite H2; destruct s1; exact Hd1).
  split; [rewrite H1; destruct s; reflexivity |].
  split; [exact Hc1 |].
  split; [rewrite Hcache2; apply get_put_eq |].
  split; [rewrite H2; destruct s1; reflexivity |].
  split; [rewrite H2; destruct s1; reflexivity |].
  split; [exact Hf2 |].
  intros reply data Hdata s3. subst s3.
  rewrite (step_FetchSettles_fulfilled s2 _ _ reply data Hf2 Hdata).
  cbn [fetchKey]. unfold loadContent. rewrite Hd2, get_put_eq.
  destruct s2; simpl. split; [apply get_put_eq | reflexivity].
Qed.

End Loading.

(* ===================================================================== *)
(** ** App.tsx: the profile, its saves and the status, continued *)
(* ===================================================================== *)

Section Saving.
Import Types DateUtils GeminiService App Session.

Variable JSON_parse : string -> option Payload.

Local Abbreviation step := (App.step JSON_parse).
Local Abbreviation trace := (App.trace JSON_parse).
Local Abbreviation steps := (App.steps JSON_parse).

Lemma step_MarkComplete_run (s : State) :
  let key := toDateString (currentDate s) in
  let newCompleted :=
    if Js.arrayIncludes (completedDates s) key
    then filter (fun d => negb (d =? key)%string) (completedDates s)
    else completedDates s ++ [key] in
  step s MarkComplete =
    run (setCompletedDates newCompleted
           :: (if initialLoadComplete s
               then persistChanges (onLine s) (theme s) newCompleted
               else [])) s.
Proof.
  intros key newCompleted. rewrite step_trace.
  unfold App.trace, dispatch, effects, syncEffect, loadEffect, toggleComplete.
  fold key. fold newCompleted. destruct s; simpl.
  rewrite orb_true_r. simpl. destruct initialLoadComplete0; simpl;
    now rewrite ?app_nil_r.
Qed.

(** X5. Once the profile is loaded, marking a day starts exactly one save,
    of the current theme and the dates as they are after the toggle, and
    sets the status to syncing, or to offline when the browser is off line.
    Before the profile is loaded it saves nothing and leaves the status. *)
Theorem toggle_starts_one_save :
  forall (s : State),
    let s' := step s MarkComplete in
    (initialLoadComplete s = true ->
       saves s' = saves s ++ [{| saveTheme := theme s;
                                 saveCompletedDates := completedDates s' |}]
       /\ syncStatus s' = (if onLine s then syncing else offline))
    /\ (initialLoadComplete s = false ->
          saves s' = saves s /\ syncStatus s' = syncStatus s)
    /\ currentDate s' = currentDate s
    /\ cache s' = cache s
    /\ content s' = content s.
Proof.
  intros s s'. subst s'. rewrite step_MarkComplete_run.
  destruct s; simpl. destruct initialLoadComplete0; simpl.
  - split; [intros _ | split; [discriminate | repeat split]].
    split; [reflexivity | now destruct onLine0].
  - split; [discriminate | split; [intros _ | ]; repeat split].
Qed.

(** X6. Marking the selected day twice gives back the completed dates: the
    same array when the day was not marked before; when it was, the same
    dates with that day moved to the end and its repetitions removed. *)
Theorem toggle_twice_restores :
  forall (s : State),
    let key := toDateString (currentDate s) in
    let l := completedDates s in
    let l2 := completedDates (step (step s MarkComplete) MarkComplete) in
    (~ In key l -> l2 = l)
    /\ (In key l -> l2 = filter (fun d => negb (d =? key)%string) l ++ [key])
    /\ (forall d, In d l2 <-> In d l)
    /\ (NoDup l -> Permutation l2 l).
Proof.
  intros s key l l2.
  assert (Hdate : currentDate (step s MarkComplete) = currentDate s).
  { rewrite step_MarkComplete_run. destruct s; simpl.
    now destruct initialLoadComplete0. }
  assert (H2 : l2 =
               let l1 := if Js.arrayIncludes l key
                         then filter (fun d => negb (d =? key)%string) l
                         else l ++ [key] in
               if Js.arrayIncludes l1 key
               then filter (fun d => negb (d =? key)%string) l1
               else l1 ++ [key]).
  { unfold l2. rewrite (step_completedDates JSON_parse _ MarkComplete). cbv zeta.
    rewrite Hdate. fold key.
    rewrite (step_completedDates JSON_parse s MarkComplete). reflexivity. }
  cbv zeta in H2.
  assert (Hfilter : forall m, ~ In key m ->
                    filter (fun d => negb (d =? key)%string) m = m).
  { induction m as [| x m IH]; intros Hm; simpl; [reflexivity |].
    destruct (String.eqb_spec x key) as [-> | Hx]; simpl.
    - exfalso. apply Hm. now left.
    - f_equal. apply IH. intros Hin. apply Hm. now right. }
  assert (Hnot : ~ In key (filter (fun d => negb (d =? key)%string) l)).
  { rewrite filter_In. intros [_ H]. now rewrite String.eqb_refl in H. }
  assert (Habsent : ~ In key l -> l2 = l).
  { intros Hk. rewrite H2.
    rewrite (proj2 (arrayIncludes_not_In l key) Hk).
    rewrite (proj2 (arrayIncludes_In (l ++ [key]) key))
      by (apply in_or_app; right; now left).
    rewrite filter_app. simpl. rewrite String.eqb_refl. simpl.
    now rewrite app_nil_r, Hfilter. }
  assert (Hpresent : In key l ->
                     l2 = filter (fun d => negb (d =? key)%string) l ++ [key]).
  { intros Hk. rewrite H2. rewrite (proj2 (arrayIncludes_In l key) Hk).
    now rewrite (proj2 (arrayIncludes_not_In _ key) Hnot). }
  assert (Hin : forall d, In d l2 <-> In d l).
  { intros d. destruct (in_dec string_dec key l) as [Hk | Hk].
    - rewrite (Hpresent Hk), in_app_iff, filter_In. simpl.
      destruct (String.eqb_spec d key) as [-> | Hd]; simpl; intuition congruence.
    - now rewrite (Habsent Hk). }
  split; [exact Habsent |]. split; [exact Hpresent |]. split; [exact Hin |].
  intros Hnd. apply NoDup_Permutation; [| exact Hnd | exact Hin].
  destruct (in_dec string_dec key l) as [Hk | Hk].
  - rewrite (Hpresent Hk). apply NoDup_rev in Hnd.
    rewrite <- (rev_involutive (_ ++ _)). apply NoDup_rev.
    rewrite rev_app_distr. simpl. constructor.
    + rewrite <- in_rev. exact Hnot.
    + apply NoDup_rev. apply NoDup_filter. now apply NoDup_rev in Hnd;
        rewrite rev_involutive in Hnd.
  - now rewrite (Habsent Hk).
Qed.

End Saving.

Section Status.
Import Types DateUtils GeminiService App Session.

Variable JSON_parse : string -> option Payload.

Local Abbreviation step := (App.step JSON_parse).
Local Abbreviation steps := (App.steps JSON_parse).


Lemma run_statusFollowsConnection (cmds : list Cmd) (s : State) :
  Forall (statusCmd (onLine s)) cmds ->
  statusFollowsConnection s ->
  statusFollowsConnection (run cmds s) /\ onLine (run cmds s) = onLine s.
Proof.
  revert s. induction cmds as [| c r IH]; intros s Hcmds Hs; simpl.
  - split; [exact Hs | reflexivity].
  - inversion Hcmds as [| ? ? Hc Hr]; subst. unfold run in *. simpl.
    assert (Hexec : statusFollowsConnection (exec c s) /\ onLine (exec c s) = onLine s).
    { unfold statusFollowsConnection in *.
      destruct c as [d | x | l | l | t | [] | b | key value | b | q | key dateStr | t l];
        destruct s; simpl in *; split; try reflexivity; try exact Hs;
        intuition (try discriminate; auto). }
    destruct Hexec as [Hs' Hon]. rewrite <- Hon in Hr.
    destruct (IH (exec c s) Hr Hs') as [H1 H2]. split; [exact H1 | congruence].
Qed.

Lemma effects_statusCmd (before after : State) (done : list Cmd) :
  Forall (statusCmd (onLine after)) (effects before after done).
Proof.
  unfold effects. apply Forall_app. split.
  - unfold syncEffect, persistChanges.
    destruct (_ || _ || _); [| constructor].
    destruct (negb (initialLoadComplete after)); [constructor |].
    destruct (onLine after); repeat constructor.
  - unfold loadEffect, loadContent. destruct (_ || _); [| constructor].
    destruct (get _ _); repeat constructor.
Qed.

Lemma dispatch_statusFollowsConnection (s : State) (e : Event) :
  statusFollowsConnection s ->
  statusFollowsConnection (run (snd (dispatch JSON_parse s e)) (fst (dispatch JSON_parse s e))).
Proof.
  intros Hs.
  assert (Hgen : forall cmds, Forall (statusCmd (onLine s)) cmds ->
                 statusFollowsConnection (run cmds s))
    by (intros cmds H; now apply run_statusFollowsConnection).
  destruct e as [r | d | updatedFields | | newTheme | q | | | i reply | i saved];
    unfold dispatch; cbn [fst snd].
  - apply Hgen. destruct (initialLoadComplete s); [constructor |].
    destruct r; repeat constructor.
  - apply Hgen. repeat constructor.
  - apply Hgen. unfold handleContentUpdate. destruct (content s); repeat constructor.
  - apply Hgen. repeat constructor.
  - apply Hgen. repeat constructor.
  - apply Hgen. repeat constructor.
  - unfold statusFollowsConnection. destruct s; simpl. reflexivity.
  - unfold statusFollowsConnection. destruct s; simpl. intuition discriminate.
  - destruct (nth_error (fetches s) i) as [f |]; cbn [fst snd]; [| exact Hs].
    apply run_statusFollowsConnection.
    + unfold loadContent_resume.
      destruct (fetchDevotionalForDate JSON_parse (fetchDateStr f) reply);
        repeat constructor.
    + destruct s; exact Hs.
  - destruct (nth_error (saves s) i); cbn [fst snd]; [| exact Hs].
    apply run_statusFollowsConnection.
    + unfold persistChanges_resume. destruct saved; [| repeat constructor].
      destruct s; simpl. destruct onLine0; repeat constructor.
    + destruct s; exact Hs.
Qed.

Lemma step_statusFollowsConnection (s : State) (e : Event) :
  statusFollowsConnection s -> statusFollowsConnection (step s e).
Proof.
  intros Hs. pose proof (dispatch_statusFollowsConnection s e Hs) as H1.
  unfold App.step. destruct (dispatch JSON_parse s e) as [s0 done]. cbn [fst snd] in H1.
  apply run_statusFollowsConnection; [apply effects_statusCmd | exact H1].
Qed.

(** X8. From the first render on, whatever happens, the status is synced or
    syncing only while the browser is on line: off line it is offline or
    error. *)
Theorem status_follows_connection :
  forall (navigatorOnLine : bool) (es : list Event),
    statusFollowsConnection (steps (mount navigatorOnLine) es).
Proof.
  intros b es.
  assert (H0 : statusFollowsConnection (mount b))
    by (destruct b; unfold statusFollowsConnection; simpl; intuition discriminate).
  revert H0. generalize (mount b).
  induction es as [| e es IH]; intros s Hs; simpl.
  - exact Hs.
  - apply IH. now apply step_statusFollowsConnection.
Qed.

Lemma put_keeps_keys (c : Cache) (key k : string) (v : DevotionalContent) :
  get c k <> None -> get (put c key v) k <> None.
Proof.
  intros H. rewrite get_put. destruct (key =? k)%string; [discriminate | exact H].
Qed.

Lemma run_keeps_keys (cmds : list Cmd) (s : State) (k : string) :
  get (cache s) k <> None -> get (cache (run cmds s)) k <> None.
Proof.
  revert s. induction cmds as [| c r IH]; intros s H; simpl; [exact H |].
  unfold run in *. simpl. apply IH.
  destruct c; destruct s; simpl in *; try exact H. now apply put_keeps_keys.
Qed.

Lemma dispatch_cache (s : State) (e : Event) :
  cache (fst (dispatch JSON_parse s e)) = cache s.
Proof.
  destruct e as [r | d | updatedFields | | newTheme | q | | | i reply | i saved];
    unfold dispatch; try reflexivity; try (destruct s; reflexivity).
  - destruct (nth_error (fetches s) i); destruct s; reflexivity.
  - destruct (nth_error (saves s) i); destruct s; reflexivity.
Qed.

Lemma step_keeps_keys (s : State) (e : Event) (k : string) :
  get (cache s) k <> None -> get (cache (step s e)) k <> None.
Proof.
  intros H. rewrite step_trace. apply run_keeps_keys. now rewrite dispatch_cache.
Qed.

(** X9. No event removes an entry of the cache: a key that is cached stays
    cached for the rest of the session, so a date that was loaded once is
    never fetched by selecting it again. *)
Theorem cached_keys_stay_cached :
  forall (s : State) (es : list Event) (d : JsDate),
    get (cache s) (toDateString d) <> None ->
    let s' := steps s es in
    get (cache s') (toDateString d) <> None
    /\ fetches (step s' (DateSelect d)) = fetches s'
    /\ loadingState (step s' (DateSelect d)) = SUCCESS.
Proof.
  intros s es d H s'.
  assert (H' : get (cache s') (toDateString d) <> None).
  { subst s'. revert s H. induction es as [| e es IH]; intros s H; simpl.
    - exact H.
    - apply IH. now apply step_keeps_keys. }
  split; [exact H' |].
  destruct (get (cache s') (toDateString d)) as [c |] eqn:Hc; [| contradiction].
  destruct (step_DateSelect_cached JSON_parse s' d c Hc) as (_ & Hl & Hf & _).
  split; assumption.
Qed.

End Status.

(* ===================================================================== *)
(** ** DevotionalDisplay.tsx: what an edit changes *)
(* ===================================================================== *)

Section Editing.
Import Types DateUtils GeminiService App DevotionalDisplay.

Variable JSON_parse : string -> option Payload.

Local Abbreviation step := (App.step JSON_parse).
Local Abbreviation steps := (App.steps JSON_parse).

Lemma updateOf_suppliesOnly (section : EditingSection) (text : string) :
  suppliesOnly (fieldOf section) (updateOf section text)
  /\ supplied (fieldOf section) (updateOf section text) = Some (Some text).
Proof.
  destruct section; (split; [split |]); simpl; try discriminate; try reflexivity;
    intros y Hy; destruct y; try reflexivity; now contradiction Hy.
Qed.

(** X10. [saveEdit] calls [onUpdateContent] exactly when a section is being
    edited, with an update that supplies a single property: the one of that
    section, with the edited text as its value. The property is the
    reflection, one of the two prayers or one of the two custom texts;
    never the date, a reference, the scripture text or the quote. The edit
    state is cleared. *)
Theorem saveEdit_supplies_one_property :
  forall (st : EditState),
    match editingSection st with
    | None => saveEdit st = (None, st)
    | Some section =>
        exists update,
          saveEdit st = (Some update, cancelEdit)
          /\ suppliesOnly (fieldOf section) update
          /\ supplied (fieldOf section) update = Some (Some (tempText st))
          /\ In (fieldOf section)
               [Freflection; FmorningPrayer; FeveningPrayer;
                FcustomPassageText; FcustomRelatedVerseText]
    end.
Proof.
  intros [[section |] text]; simpl; [| reflexivity].
  exists (updateOf section text).
  destruct (updateOf_suppliesOnly section text) as [H1 H2].
  split; [reflexivity |]. split; [exact H1 |]. split; [exact H2 |].
  destruct section; simpl; auto 6.
Qed.



End Editing.

(* ===================================================================== *)
(** ** App.tsx: search, continued *)
(* ===================================================================== *)

Section SearchQuery.
Import Types App.

Variable Date_getTime : string -> Js.number.








End SearchQuery.

(* ===================================================================== *)
(** ** syncService.ts: [mergeProfiles], continued *)
(* ===================================================================== *)

Section MergeOrder.
Import Types SyncService.

Lemma fold_Set_add_prefix (c acc : list string) :
  exists rest, fold_left Js.Set_add c acc = acc ++ rest.
Proof.
  revert acc. induction c as [| x c IH]; intros acc; simpl.
  - exists []. now rewrite app_nil_r.
  - unfold Js.Set_add at 2. destruct (Js.arrayIncludes acc x).
    + apply IH.
    + destruct (IH (acc ++ [x])) as [rest Hrest]. exists (x :: rest).
      rewrite Hrest, <- app_assoc. reflexivity.
Qed.

(** X14. When the local dates have no duplicates, the merged dates are the
    local dates, in their order, followed by the dates that only the cloud
    has; a cloud profile with no new date leaves the local dates as they
    are. *)
Theorem mergeProfiles_keeps_local_order :
  forall (now : Z) (local cloud : UserProfile),
    NoDup (completedDates (progress local)) ->
    let dates := fun p => completedDates (progress p) in
    exists rest,
      dates (mergeProfiles now local cloud) = dates local ++ rest
      /\ (forall d, In d rest <-> In d (dates cloud) /\ ~ In d (dates local))
      /\ (incl (dates cloud) (dates local) -> rest = []).
Proof.
  intros now local cloud Hnd dates.
  assert (Hmerged : dates (mergeProfiles now local cloud) =
                    fold_left Js.Set_add (dates cloud) (dates local)).
  { unfold dates, mergeProfiles, Js.Array_from, Js.Set_new. simpl.
    rewrite fold_left_app. f_equal. now apply Set_new_NoDup_id. }
  destruct (fold_Set_add_prefix (dates cloud) (dates local)) as [rest Hrest].
  exists rest. rewrite Hmerged, Hrest.
  assert (Hall : NoDup (dates local ++ rest)).
  { rewrite <- Hrest. now apply fold_Set_add_NoDup. }
  assert (Hin : forall d, In d rest <-> In d (dates cloud) /\ ~ In d (dates local)).
  { intros d. split.
    - intros Hd. split.
      + assert (H : In d (fold_left Js.Set_add (dates cloud) (dates local)))
          by (rewrite Hrest; apply in_or_app; now right).
        apply fold_Set_add_In in H. destruct H as [H | H]; [| exact H].
        exfalso. revert Hall H Hd. clear. intros Hall.
        induction (dates local) as [| x l IH]; simpl; [tauto |].
        inversion Hall; subst. intros [-> | H] Hd.
        * apply H1. apply in_or_app. now right.
        * now apply IH.
      + intros Hl. revert Hall Hl Hd. clear. intros Hall.
        induction (dates local) as [| x l IH]; simpl; [tauto |].
        inversion Hall; subst. intros [-> | H] Hd.
        * apply H1. apply in_or_app. now right.
        * now apply IH.
    - intros [Hc Hl].
      assert (H : In d (fold_left Js.Set_add (dates cloud) (dates local)))
        by (apply fold_Set_add_In; now right).
      rewrite Hrest in H. apply in_app_or in H. tauto. }
  split; [reflexivity |]. split; [exact Hin |].
  intros Hincl. destruct rest as [| d rest]; [reflexivity |].
  exfalso. destruct (proj1 (Hin d) (or_introl eq_refl)) as [Hc Hl].
  apply Hl, Hincl, Hc.
Qed.

(** X15. When the two timestamps differ, the order of the arguments of
    [mergeProfiles] decides nothing but the order of the dates: both orders
    give the same theme, that of the later profile, and the same dates up
    to their order. *)
Theorem mergeProfiles_argument_order :
  forall (now : Z) (a b : UserProfile),
    lastSyncedAt a <> lastSyncedAt b ->
    let ab := mergeProfiles now a b in
    let ba := mergeProfiles now b a in
    theme (preferences ab) = theme (preferences ba)
    /\ theme (preferences ab) =
         theme (preferences (if (lastSyncedAt a <? lastSyncedAt b)%Z then b else a))
    /\ Permutation (completedDates (progress ab)) (completedDates (progress ba)).
Proof.
  intros now a b Hne ab ba. subst ab ba. split; [| split].
  - unfold mergeProfiles. simpl.
    destruct (Z.gtb_spec (lastSyncedAt b) (lastSyncedAt a)),
             (Z.gtb_spec (lastSyncedAt a) (lastSyncedAt b)); try reflexivity; lia.
  - unfold mergeProfiles. simpl.
    destruct (Z.gtb_spec (lastSyncedAt b) (lastSyncedAt a)),
             (Z.ltb_spec (lastSyncedAt a) (lastSyncedAt b)); try reflexivity; lia.
  - apply NoDup_Permutation; try apply merged_NoDup.
    intros d. rewrite !merged_In. tauto.
Qed.

End MergeOrder.


(* ===================================================================== *)
(** ** dateUtils.ts: the days of the calendar *)
(* ===================================================================== *)

Section CivilDays.
Import DateUtils Calendar.
Local Open Scope Z_scope.

(** The days of a month follow one another. *)
Lemma daysFromCivil_day (y m d : Z) :
  daysFromCivil y m d = daysFromCivil y m 1 + d - 1.
Proof. unfold daysFromCivil. cbv zeta. lia. Qed.

(** The day number of the date of a day number is that number. *)
Lemma dayNumber_civilFromDays (n : Z) : dayNumber (civilFromDays n) = n.
Proof.
  unfold dayNumber, civilFromDays, daysFromCivil. cbv zeta. cbn [getFullYear getMonth getDate].
  destruct (Z.ltb _ 10) eqn:E1; destruct (Z.leb _ 2) eqn:E2.
  all: match goal with |- context [Z.leb ?a 2] => destruct (Z.leb a 2) eqn:E3 end.
  all: match goal with |- context [Z.ltb 2 ?a] => destruct (Z.ltb 2 a) eqn:E4 end.
  all: rewrite ?Z.ltb_lt, ?Z.ltb_ge, ?Z.leb_le, ?Z.leb_gt in *.
  all: Z.div_mod_to_equations; lia.
Qed.

(** The year of the era from the day of the era. *)
Lemma yearOfEra (yoe doy : Z) :
  0 <= yoe <= 399 -> 0 <= doy ->
  365 * yoe + yoe / 4 - yoe / 100 + doy
    < 365 * (yoe + 1) + (yoe + 1) / 4 - (yoe + 1) / 100 + (if yoe =? 399 then 1 else 0) ->
  let doe := 365 * yoe + yoe / 4 - yoe / 100 + doy in
  (doe - doe / 1460 + doe / 36524 - doe / 146096) / 365 = yoe.
Proof.
  intros H1 H2 H3 doe. subst doe.
  destruct (Z.eqb_spec yoe 399); Z.div_mod_to_equations; lia.
Qed.

(** The month of the year that starts in March, from the day of that year. *)
Lemma monthOfYear (mp d : Z) :
  0 <= mp <= 11 -> 1 <= d ->
  (153 * mp + 2) / 5 + d - 1 < (153 * (mp + 1) + 2) / 5 ->
  (5 * ((153 * mp + 2) / 5 + d - 1) + 2) / 153 = mp.
Proof. intros. Z.div_mod_to_equations; lia. Qed.

(** The first of the next month comes a month's length after the first of
    the month. *)
Lemma nextMonth_start (y m : Z) :
  1 <= m <= 12 ->
  (if m =? 12 then daysFromCivil (y + 1) 1 1 else daysFromCivil y (m + 1) 1)
  = daysFromCivil y m 1 + monthLength y m.
Proof.
  intros Hm.
  assert (Hcases : m = 1 \/ m = 2 \/ m = 3 \/ m = 4 \/ m = 5 \/ m = 6 \/ m = 7
                   \/ m = 8 \/ m = 9 \/ m = 10 \/ m = 11 \/ m = 12) by lia.
  repeat (destruct Hcases as [-> | Hcases]); try subst m;
    unfold daysFromCivil, monthLength, leapYear; cbv zeta;
    simpl Z.eqb; simpl Z.leb; simpl Z.ltb; cbv iota; simpl orb;
    repeat match goal with
           | |- context [Z.eqb ?a ?b] => destruct (Z.eqb_spec a b)
           end; simpl; Z.div_mod_to_equations; lia.
Qed.

(** The date of a day number given by its era, year of the era, month from
    March and day. *)
Lemma civilFromDays_coordinates (era yoe mp d : Z) :
  0 <= yoe <= 399 -> 0 <= mp <= 11 -> 1 <= d ->
  (153 * mp + 2) / 5 + d - 1 < (153 * (mp + 1) + 2) / 5 ->
  365 * yoe + yoe / 4 - yoe / 100 + ((153 * mp + 2) / 5 + d - 1)
    < 365 * (yoe + 1) + (yoe + 1) / 4 - (yoe + 1) / 100 + (if yoe =? 399 then 1 else 0) ->
  civilFromDays (era * 146097 + (365 * yoe + yoe / 4 - yoe / 100 + ((153 * mp + 2) / 5 + d - 1)) - 719468)
  = let m := if mp <? 10 then mp + 3 else mp - 9 in
    {| getFullYear := if m <=? 2 then yoe + era * 400 + 1 else yoe + era * 400;
       getMonth := m - 1; getDate := d |}.
Proof.
  intros Hyoe Hmp Hd Hmonth Hyear.
  set (doy := (153 * mp + 2) / 5 + d - 1) in *.
  set (doe := 365 * yoe + yoe / 4 - yoe / 100 + doy) in *.
  assert (Hdoy : 0 <= doy) by (subst doy; Z.div_mod_to_equations; lia).
  assert (Hdoe : 0 <= doe <= 146096).
  { subst doe. destruct (Z.eqb_spec yoe 399); Z.div_mod_to_equations; lia. }
  unfold civilFromDays. cbv zeta.
  replace (era * 146097 + doe - 719468 + 719468) with (era * 146097 + doe) by lia.
  assert (Hera : (era * 146097 + doe) / 146097 = era) by (Z.div_mod_to_equations; lia).
  rewrite Hera.
  replace (era * 146097 + doe - era * 146097) with doe by lia.
  assert (Hy : (doe - doe / 1460 + doe / 36524 - doe / 146096) / 365 = yoe)
    by (apply (yearOfEra yoe doy); assumption).
  rewrite Hy.
  replace (doe - (365 * yoe + yoe / 4 - yoe / 100)) with doy by (subst doe; lia).
  assert (Hm : (5 * doy + 2) / 153 = mp) by (apply (monthOfYear mp d); assumption).
  rewrite Hm.
  replace (doy - (153 * mp + 2) / 5 + 1) with d by (subst doy; lia).
  reflexivity.
Qed.

(** The date of the day number of a day of the calendar is that day. *)
Lemma civilFromDays_daysFromCivil (y m d : Z) :
  1 <= m <= 12 -> 1 <= d <= monthLength y m ->
  civilFromDays (daysFromCivil y m d) = {| getFullYear := y; getMonth := m - 1; getDate := d |}.
Proof.
  intros Hm Hd.
  set (y' := if m <=? 2 then y - 1 else y).
  set (era := y' / 400).
  set (yoe := y' - era * 400).
  set (mp := if 2 <? m then m - 3 else m + 9).
  assert (Hyoe : 0 <= yoe <= 399) by (subst yoe era; Z.div_mod_to_equations; lia).
  assert (Hn : daysFromCivil y m d =
               era * 146097 + (365 * yoe + yoe / 4 - yoe / 100 + ((153 * mp + 2) / 5 + d - 1)) - 719468).
  { unfold daysFromCivil. cbv zeta. fold y'. fold era. fold yoe. fold mp. lia. }
  rewrite Hn. clear Hn.
  assert (Hshift : (m <= 2 /\ mp = m + 9 /\ y' = y - 1) \/ (3 <= m /\ mp = m - 3 /\ y' = y)).
  { subst mp y'. destruct (Z.ltb_spec 2 m), (Z.leb_spec m 2); lia. }
  assert (Hera : era = y' / 400) by reflexivity.
  assert (Hyoe' : yoe = y' - era * 400) by reflexivity.
  clearbody mp yoe era y'.
  assert (Hlen : monthLength y m <= 31
                 /\ (m <> 2 -> (153 * mp + 2) / 5 + monthLength y m = (153 * (mp + 1) + 2) / 5)
                 /\ (m = 2 -> monthLength y m <= 29
                              /\ (monthLength y m = 29 ->
                                  y mod 4 = 0 /\ (y mod 100 <> 0 \/ y mod 400 = 0)))).
  { unfold monthLength, leapYear.
    repeat match goal with
           | |- context [Z.eqb ?a ?b] => destruct (Z.eqb_spec a b)
           end; cbn [orb andb negb]; repeat split; intros; try lia;
      try (Z.div_mod_to_equations; lia). }
  destruct Hlen as (Hmax & Hother & Hfeb).
  rewrite civilFromDays_coordinates; try assumption; try lia.
  - cbv zeta.
    destruct (Z.ltb_spec mp 10);
      match goal with |- context [Z.leb ?a 2] => destruct (Z.leb_spec a 2) end;
      f_equal; lia.
  - destruct (Z.eq_dec m 2) as [-> | Hne].
    + destruct Hfeb as [H29 _]; [reflexivity |].
      assert (mp = 11) by lia. subst mp. Z.div_mod_to_equations; lia.
    + specialize (Hother Hne). lia.
  - destruct (Z.eq_dec m 2) as [-> | Hne].
    + destruct Hfeb as [H29 Hleap]; [reflexivity |].
      assert (mp = 11) by lia. subst mp.
      assert (Hd' : d <= 28 \/ d = 29) by lia.
      destruct Hd' as [Hd' | ->].
      * destruct (Z.eqb_spec yoe 399); Z.div_mod_to_equations; lia.
      * destruct Hleap as [H4 H100]; [lia |].
        destruct (Z.eqb_spec yoe 399); [clear - e; Z.div_mod_to_equations; lia |].
        assert (Hy1 : yoe + 1 = y - era * 400) by lia.
        assert (H4' : (yoe + 1) mod 4 = 0)
          by (rewrite Hy1; clear - H4; Z.div_mod_to_equations; lia).
        assert (H100' : (yoe + 1) mod 100 <> 0).
        { rewrite Hy1. clear - H100 Hy1 Hyoe n. Z.div_mod_to_equations. lia. }
        clear - Hyoe H4' H100'. Z.div_mod_to_equations. lia.
    + assert (Hdoy : (153 * mp + 2) / 5 + d - 1 <= 336).
      { specialize (Hother Hne). Z.div_mod_to_equations; lia. }
      destruct (Z.eqb_spec yoe 399); Z.div_mod_to_equations; lia.
Qed.

Section Months.
Variable cy : Z.

Let start (k : Z) : Z := daysFromCivil (cy + k / 12) (k mod 12 + 1) 1.
Let len (k : Z) : Z := monthLength (cy + k / 12) (k mod 12 + 1).

(** A month has from 28 to 31 days. *)
Lemma monthLength_bounds (y m : Z) : 28 <= monthLength y m <= 31.
Proof.
  unfold monthLength.
  destruct (m =? 2); [destruct (leapYear y); lia |].
  destruct (_ || _); lia.
Qed.

(** The months follow one another, also across the end of a year. *)
Lemma start_next (k : Z) : start (k + 1) = start k + len k.
Proof.
  unfold start, len.
  assert (Hm : 1 <= k mod 12 + 1 <= 12) by (Z.div_mod_to_equations; lia).
  rewrite <- (nextMonth_start (cy + k / 12) (k mod 12 + 1) Hm).
  destruct (Z.eqb_spec (k mod 12 + 1) 12) as [H12 | H12].
  - replace ((k + 1) / 12) with (k / 12 + 1) by (Z.div_mod_to_equations; lia).
    replace ((k + 1) mod 12 + 1) with 1 by (Z.div_mod_to_equations; lia).
    f_equal. lia.
  - replace ((k + 1) / 12) with (k / 12) by (Z.div_mod_to_equations; lia).
    replace ((k + 1) mod 12) with (k mod 12 + 1) by (Z.div_mod_to_equations; lia).
    reflexivity.
Qed.

(** The [d]-th day from the first of a month, within the month. *)
Lemma civilFromDays_start (k d : Z) :
  1 <= d <= len k ->
  civilFromDays (start k + d - 1)
  = {| getFullYear := cy + k / 12; getMonth := k mod 12; getDate := d |}.
Proof.
  intros Hd. unfold start. rewrite <- daysFromCivil_day.
  rewrite civilFromDays_daysFromCivil.
  - f_equal. lia.
  - Z.div_mod_to_equations; lia.
  - exact Hd.
Qed.

End Months.

Import ListNotations.
Local Open Scope list_scope.

(** [new Date(year, k, d)] for a day [d] of the month: the month [k] may be
    outside 0..11. *)
Lemma newDate_cell (year k d : Z) :
  1 <= d <= monthLength (constructorYear year + k / 12) (k mod 12 + 1) ->
  newDate year k d
  = {| getFullYear := constructorYear year + k / 12; getMonth := k mod 12; getDate := d |}.
Proof. intros Hd. unfold newDate. cbv zeta. now apply civilFromDays_start. Qed.

(** [new Date(year, k, -i)]: the day [i] days before the last of the month
    before. *)
Lemma newDate_before (year k i : Z) :
  0 <= i < 28 ->
  newDate year k (- i)
  = {| getFullYear := constructorYear year + (k - 1) / 12;
       getMonth := (k - 1) mod 12;
       getDate := monthLength (constructorYear year + (k - 1) / 12) ((k - 1) mod 12 + 1) - i |}.
Proof.
  intros Hi. unfold newDate. cbv zeta.
  pose proof (start_next (constructorYear year) (k - 1)) as Hs.
  replace (k - 1 + 1) with k in Hs by lia. rewrite Hs.
  pose proof (monthLength_bounds (constructorYear year + (k - 1) / 12) ((k - 1) mod 12 + 1)).
  rewrite <- (civilFromDays_start (constructorYear year) (k - 1)) by lia.
  f_equal. lia.
Qed.

(** Day 0 of the next month is the last day of the month. *)
Lemma getDaysInMonth_monthLength (year k : Z) :
  getDaysInMonth year k = monthLength (constructorYear year + k / 12) (k mod 12 + 1).
Proof.
  unfold getDaysInMonth. change 0 with (- 0). rewrite newDate_before by lia.
  cbn [getDate]. replace (k + 1 - 1) with k by lia. lia.
Qed.

(** A month on view is read by the constructor as it is. *)
Lemma onView_year (year month : Z) :
  onView year month ->
  constructorYear year = year /\ month / 12 = 0 /\ month mod 12 = month.
Proof.
  intros [Hy Hm]. unfold constructorYear.
  destruct (Z.leb_spec 0 year), (Z.leb_spec year 99); cbn [andb]; try lia.
  all: split; [lia |]; Z.div_mod_to_equations; lia.
Qed.

Lemma countDown_bounds (n : nat) (i : Z) : In i (countDown n) -> 0 <= i < Z.of_nat n.
Proof.
  unfold countDown. rewrite in_map_iff. intros [j [<- Hj]].
  apply in_rev in Hj. apply in_seq in Hj. lia.
Qed.

Lemma countUp_bounds (n : nat) (i : Z) : In i (countUp n) -> 1 <= i <= Z.of_nat n.
Proof.
  unfold countUp. rewrite in_map_iff. intros [j [<- Hj]]. apply in_seq in Hj. lia.
Qed.

Lemma countDown_length (n : nat) : List.length (countDown n) = n.
Proof. unfold countDown. now rewrite length_map, length_rev, length_seq. Qed.

Lemma countUp_length (n : nat) : List.length (countUp n) = n.
Proof. unfold countUp. now rewrite length_map, length_seq. Qed.

(** A weekday is from 0 to 6. *)
Lemma getFirstDayOfMonth_bounds (year month : Z) : 0 <= getFirstDayOfMonth year month <= 6.
Proof.
  unfold getFirstDayOfMonth, getDay.
  match goal with |- context [?a mod 7] => pose proof (Z.mod_pos_bound a 7) end. lia.
Qed.

(** The cells of the grid, one by one. *)
Lemma grid_cells (year month : Z) (selectedDate : JsDate) :
  onView year month ->
  let first := getFirstDayOfMonth year month in
  let len := monthLength year (month + 1) in
  let py := year + (month - 1) / 12 in
  let pm := (month - 1) mod 12 in
  let ny := year + (month + 1) / 12 in
  let nm := (month + 1) mod 12 in
  generateCalendarGrid year month selectedDate =
    map (fun i => {| getFullYear := py; getMonth := pm;
                     getDate := monthLength py (pm + 1) - i |})
        (countDown (Z.to_nat first))
    ++ map (fun d => {| getFullYear := year; getMonth := month; getDate := d |})
         (countUp (Z.to_nat len))
    ++ map (fun d => {| getFullYear := ny; getMonth := nm; getDate := d |})
         (countUp (Z.to_nat (42 - first - len))).
Proof.
  intros Hview first len py pm ny nm.
  destruct (onView_year year month Hview) as (Hcy & Hdiv & Hmod).
  pose proof (getFirstDayOfMonth_bounds year month) as Hfirst. fold first in Hfirst.
  pose proof (monthLength_bounds year (month + 1)) as Hlen. fold len in Hlen.
  unfold generateCalendarGrid. cbv zeta. fold first.
  rewrite getDaysInMonth_monthLength, Hcy, Hdiv, Hmod, Z.add_0_r. fold len.
  rewrite <- app_assoc. f_equal; [| f_equal].
  - apply map_ext_in. intros i Hi. apply countDown_bounds in Hi.
    rewrite newDate_before by lia. now rewrite Hcy.
  - apply map_ext_in. intros d Hd. apply countUp_bounds in Hd.
    rewrite newDate_cell; rewrite Hcy, Hdiv, Hmod, Z.add_0_r; [reflexivity |].
    fold len. lia.
  - rewrite length_app, !length_map, countDown_length, countUp_length.
    replace (42 - Z.of_nat (Z.to_nat first + Z.to_nat len)) with (42 - first - len) by lia.
    apply map_ext_in. intros d Hd. apply countUp_bounds in Hd.
    pose proof (monthLength_bounds ny (nm + 1)).
    rewrite newDate_cell; rewrite Hcy; [reflexivity |]. fold ny nm. lia.
Qed.


Lemma map_seq_from (a : Z) (j m : nat) :
  map (fun k => a + Z.of_nat k) (seq j m) = consecutive (a + Z.of_nat j) m.
Proof.
  unfold consecutive. revert a j. induction m as [| m IH]; intros a j; simpl.
  - reflexivity.
  - f_equal; [lia |]. rewrite (IH a (S j)), (IH (a + Z.of_nat j) 1%nat).
    apply map_ext. intros k. lia.
Qed.

Lemma consecutive_app (a : Z) (n m : nat) :
  consecutive a (n + m) = consecutive a n ++ consecutive (a + Z.of_nat n) m.
Proof.
  unfold consecutive at 1 2. rewrite seq_app, map_app. f_equal. apply map_seq_from.
Qed.

Lemma countUp_consecutive (a : Z) (n : nat) :
  map (fun d => a + d) (countUp n) = consecutive (a + 1) n.
Proof.
  unfold countUp. rewrite map_map. rewrite (map_seq_from a 1 n). f_equal.
Qed.

Lemma countDown_consecutive (a : Z) (n : nat) :
  map (fun i => a - i) (countDown n) = consecutive (a - Z.of_nat n + 1) n.
Proof.
  unfold countDown. rewrite map_map. induction n as [| n IH].
  - reflexivity.
  - rewrite seq_S, rev_app_distr. simpl rev. simpl app. cbn [map].
    replace (S n) with (1 + n)%nat by lia. rewrite consecutive_app.
    simpl plus. rewrite IH. unfold consecutive at 2. simpl.
    f_equal; [lia |]. f_equal. lia.
Qed.

(** The day numbers of the cells follow one another from the Sunday on or
    before the first of the month. *)
Lemma grid_dayNumbers (year month : Z) (selectedDate : JsDate) :
  onView year month ->
  map dayNumber (generateCalendarGrid year month selectedDate)
  = consecutive (daysFromCivil year (month + 1) 1 - getFirstDayOfMonth year month) 42.
Proof.
  intros Hview. rewrite (grid_cells year month selectedDate Hview). cbv zeta.
  destruct (onView_year year month Hview) as (Hcy & Hdiv & Hmod).
  pose proof (getFirstDayOfMonth_bounds year month) as Hfirst.
  pose proof (monthLength_bounds year (month + 1)) as Hlen.
  set (first := getFirstDayOfMonth year month) in *.
  set (len := monthLength year (month + 1)) in *.
  set (S0 := daysFromCivil year (month + 1) 1).
  assert (Hprev : daysFromCivil (year + (month - 1) / 12) ((month - 1) mod 12 + 1) 1
                  + monthLength (year + (month - 1) / 12) ((month - 1) mod 12 + 1) = S0).
  { pose proof (start_next year (month - 1)) as H.
    cbv beta zeta in H. rewrite Z.sub_add, Hdiv, Hmod, Z.add_0_r in H. subst S0. lia. }
  assert (Hnext : daysFromCivil (year + (month + 1) / 12) ((month + 1) mod 12 + 1) 1
                  = S0 + len).
  { pose proof (start_next year month) as H.
    cbv beta zeta in H. rewrite Hdiv, Hmod, Z.add_0_r in H. subst S0 len. lia. }
  rewrite !map_app, !map_map. unfold dayNumber. cbn [getFullYear getMonth getDate].
  rewrite (map_ext _ (fun i => (S0 - 1) - i))
    by (intros i; rewrite daysFromCivil_day; lia).
  rewrite (map_ext (fun d => daysFromCivil year (month + 1) d) (fun d => (S0 - 1) + d))
    by (intros d; rewrite daysFromCivil_day; subst S0; lia).
  rewrite (map_ext (fun d => daysFromCivil _ _ d) (fun d => (S0 + len - 1) + d))
    by (intros d; rewrite daysFromCivil_day; lia).
  rewrite countDown_consecutive, !countUp_consecutive.
  replace 42%nat with (Z.to_nat first + (Z.to_nat len + Z.to_nat (42 - first - len)))%nat by lia.
  rewrite !consecutive_app. f_equal; [f_equal; lia |]. f_equal; f_equal; lia.
Qed.

(** The weekday of the first of the month, from its day number. *)
Lemma getFirstDayOfMonth_first (year month : Z) :
  onView year month ->
  getFirstDayOfMonth year month = (daysFromCivil year (month + 1) 1 + 4) mod 7.
Proof.
  intros Hview. destruct (onView_year year month Hview) as (Hcy & Hdiv & Hmod).
  unfold getFirstDayOfMonth.
  rewrite newDate_cell; rewrite Hcy, Hdiv, Hmod, Z.add_0_r.
  - reflexivity.
  - pose proof (monthLength_bounds year (month + 1)). lia.
Qed.

(** X16. The grid of a month has 42 cells, whatever the month: six weeks
    of consecutive days, with no day missing or repeated. Each cell is in
    the column of its weekday, Sunday first, and the first of the month is
    the cell at the index of its weekday. *)
Theorem grid_is_six_weeks :
  forall (year month : Z) (selectedDate : JsDate),
    onView year month ->
    let grid := generateCalendarGrid year month selectedDate in
    let first := getFirstDayOfMonth year month in
    List.length grid = 42%nat
    /\ map dayNumber grid
       = consecutive (dayNumber {| getFullYear := year; getMonth := month; getDate := 1 |}
                      - first) 42
    /\ (forall (k : nat) (cell : JsDate),
          nth_error grid k = Some cell -> getDay cell = Z.of_nat k mod 7)
    /\ nth_error grid (Z.to_nat first)
       = Some {| getFullYear := year; getMonth := month; getDate := 1 |}.
Proof.
  intros year month sel Hview grid first.
  assert (Hnum : map dayNumber grid
                 = consecutive (daysFromCivil year (month + 1) 1 - first) 42)
    by apply (grid_dayNumbers year month sel Hview).
  assert (Hlen : List.length grid = 42%nat).
  { rewrite <- (length_map dayNumber), Hnum. unfold consecutive.
    now rewrite length_map, length_seq. }
  split; [exact Hlen |]. split; [exact Hnum |]. split.
  - intros k cell Hk.
    assert (Hk42 : (k < 42)%nat) by (rewrite <- Hlen; apply nth_error_Some; congruence).
    assert (Hd : dayNumber cell = daysFromCivil year (month + 1) 1 - first + Z.of_nat k).
    { pose proof (map_nth_error dayNumber k grid Hk) as H. rewrite Hnum in H.
      unfold consecutive in H.
      rewrite (map_nth_error (fun j => _ + Z.of_nat j) k (seq 0 42) (d := k)) in H.
      - now inversion H.
      - rewrite nth_error_nth' with (d := 0%nat) by (rewrite length_seq; lia).
        now rewrite seq_nth. }
    change (getDay cell) with ((dayNumber cell + 4) mod 7). rewrite Hd.
    unfold first. rewrite (getFirstDayOfMonth_first year month Hview).
    Z.div_mod_to_equations. lia.
  - subst grid. rewrite (grid_cells year month sel Hview). cbv zeta. fold first.
    pose proof (getFirstDayOfMonth_bounds year month) as Hf. fold first in Hf.
    pose proof (monthLength_bounds year (month + 1)) as Hl.
    rewrite nth_error_app2 by (rewrite length_map, countDown_length; lia).
    rewrite length_map, countDown_length, Nat.sub_diag.
    destruct (Z.to_nat (monthLength year (month + 1))) as [| n] eqn:E; [lia |].
    reflexivity.
Qed.

Lemma filter_map_none {A B : Type} (p : B -> bool) (f : A -> B) (l : list A) :
  (forall x, p (f x) = false) -> filter p (map f l) = [].
Proof. intros H. induction l as [| x l IH]; simpl; [reflexivity |]. now rewrite H. Qed.

Lemma filter_map_all {A B : Type} (p : B -> bool) (f : A -> B) (l : list A) :
  (forall x, p (f x) = true) -> filter p (map f l) = map f l.
Proof. intros H. induction l as [| x l IH]; simpl; [reflexivity |]. now rewrite H, IH. Qed.

(** X17. The cells the calendar does not disable are the days of the month
    on view, each once, from the first to the last in order; the fillers
    of the months before and after cannot be selected. *)
Theorem selectable_cells_are_the_days_of_the_month :
  forall (viewDate currentDate : JsDate),
    onView (getFullYear viewDate) (getMonth viewDate) ->
    filter (isCurrentMonth viewDate) (calendarDays viewDate currentDate)
    = map (fun d => {| getFullYear := getFullYear viewDate;
                       getMonth := getMonth viewDate; getDate := d |})
          (countUp (Z.to_nat (monthLength (getFullYear viewDate) (getMonth viewDate + 1)))).
Proof.
  intros v cur Hview. unfold calendarDays.
  rewrite (grid_cells _ _ cur Hview). cbv zeta.
  destruct Hview as [_ Hm].
  rewrite !filter_app.
  rewrite filter_map_none, filter_map_all, filter_map_none.
  - now rewrite app_nil_r.
  - intros d. unfold isCurrentMonth. cbn [getMonth]. apply Z.eqb_neq.
    Z.div_mod_to_equations. lia.
  - intros d. unfold isCurrentMonth. cbn [getMonth]. apply Z.eqb_refl.
  - intros d. unfold isCurrentMonth. cbn [getMonth]. apply Z.eqb_neq.
    Z.div_mod_to_equations. lia.
Qed.

(** X18. [getDaysInMonth] returns the length of the month in the Gregorian
    calendar: 28 days for February, 29 in a leap year, 30 for April, June,
    September and November, 31 for the others. *)
Theorem getDaysInMonth_is_the_length_of_the_month :
  forall (year month : Z),
    onView year month ->
    getDaysInMonth year month
    = if month =? 1 then (if leapYear year then 29 else 28)
      else if (month =? 3) || (month =? 5) || (month =? 8) || (month =? 10) then 30
      else 31.
Proof.
  intros year month Hview. destruct (onView_year year month Hview) as (Hcy & Hdiv & Hmod).
  rewrite getDaysInMonth_monthLength, Hcy, Hdiv, Hmod, Z.add_0_r. unfold monthLength.
  repeat match goal with
         | |- context [Z.eqb ?a ?b] => destruct (Z.eqb_spec a b)
         end; try reflexivity; lia.
Qed.

(** X19. The next month of the view is the first of the following month,
    January of the next year after December. Going to the next month and
    back shows the first of the month the view was on, and so does going
    back and then forward, unless the view is on January of the year 100:
    the month before it is in the year 99, which the [Date] constructor
    reads as 1999. *)
Theorem next_then_previous_month :
  forall (viewDate : JsDate),
    onView (getFullYear viewDate) (getMonth viewDate) ->
    let first := {| getFullYear := getFullYear viewDate;
                    getMonth := getMonth viewDate; getDate := 1 |} in
    handleNextMonth viewDate
    = (if getMonth viewDate =? 11
       then {| getFullYear := getFullYear viewDate + 1; getMonth := 0; getDate := 1 |}
       else {| getFullYear := getFullYear viewDate;
               getMonth := getMonth viewDate + 1; getDate := 1 |})
    /\ handlePrevMonth (handleNextMonth viewDate) = first
    /\ (100 < getFullYear viewDate \/ 0 < getMonth viewDate ->
        handleNextMonth (handlePrevMonth viewDate) = first).
Proof.
  intros v Hview first.
  destruct (onView_year _ _ Hview) as (Hcy & Hdiv & Hmod). destruct Hview as [Hy Hm].
  assert (Hcy' : forall y, 100 <= y -> constructorYear y = y).
  { intros y H. unfold constructorYear.
    destruct (Z.leb_spec 0 y), (Z.leb_spec y 99); cbn [andb]; lia. }
  assert (H1 : forall y k, 1 <= monthLength y k)
    by (intros y k; pose proof (monthLength_bounds y k); lia).
  assert (Hnext : handleNextMonth v
                  = {| getFullYear := getFullYear v + (getMonth v + 1) / 12;
                       getMonth := (getMonth v + 1) mod 12; getDate := 1 |}).
  { unfold handleNextMonth. rewrite newDate_cell; rewrite Hcy; [reflexivity |].
    specialize (H1 (getFullYear v + (getMonth v + 1) / 12) ((getMonth v + 1) mod 12 + 1)). lia. }
  assert (Hprev : handlePrevMonth v
                  = {| getFullYear := getFullYear v + (getMonth v - 1) / 12;
                       getMonth := (getMonth v - 1) mod 12; getDate := 1 |}).
  { unfold handlePrevMonth. rewrite newDate_cell; rewrite Hcy; [reflexivity |].
    specialize (H1 (getFullYear v + (getMonth v - 1) / 12) ((getMonth v - 1) mod 12 + 1)). lia. }
  split; [| split].
  - rewrite Hnext. destruct (Z.eqb_spec (getMonth v) 11) as [E | E].
    + rewrite E. reflexivity.
    + f_equal; Z.div_mod_to_equations; lia.
  - rewrite Hnext. unfold handlePrevMonth. cbn [getFullYear getMonth].
    rewrite newDate_cell; rewrite Hcy' by (Z.div_mod_to_equations; lia).
    + unfold first. f_equal; Z.div_mod_to_equations; lia.
    + match goal with |- _ <= 1 <= monthLength ?y ?k => specialize (H1 y k) end. lia.
  - intros Hlow. rewrite Hprev. unfold handleNextMonth. cbn [getFullYear getMonth].
    rewrite newDate_cell; rewrite Hcy' by (Z.div_mod_to_equations; lia).
    + unfold first. f_equal; Z.div_mod_to_equations; lia.
    + match goal with |- _ <= 1 <= monthLength ?y ?k => specialize (H1 y k) end. lia.
Qed.

End CivilDays.

(* ===================================================================== *)
(** ** The properties, on the sessions of the scenario *)
(* ===================================================================== *)

Section Runs.
Import Types DateUtils GeminiService SyncService App Session Scenario.

Local Abbreviation step := (App.step Host.JSON_parse).
Local Abbreviation steps := (App.steps Host.JSON_parse).


(** January 2 is selected and being fetched when the fetch of January 1
    resolves: January 2 is fetched a second time. *)
Lemma cache_change_refetches_selected_date_witness :
  fetches superseded = [fetchOf jan1; fetchOf jan2]
  /\ fetches (step superseded (FetchSettles 0 (reply Host.genesis)))
     = [fetchOf jan2; fetchOf jan2]
  /\ pendingFor "Fri Jan 02 2026" (step superseded (FetchSettles 0 (reply Host.genesis)))
     = 2%nat.
Proof.
  destruct (cache_change_refetches_selected_date Host.JSON_parse superseded 0
              (fetchOf jan1) (reply Host.genesis) genesisRecord)
    as (Hfetches & Hpending).
  - reflexivity.
  - discriminate.
  - reflexivity.
  - reflexivity.
  - split; [reflexivity |]. split; [exact Hfetches | exact Hpending].
Defined.

(** January 1 is displayed, January 2 is selected and the passage of the
    record still on display is edited: the record of January 1, edited, is
    cached under the key of January 2. *)
Lemma update_while_loading_is_filed_under_the_new_date_witness :
  let s1 := step loaded (DateSelect jan2) in
  let s2 := step s1 (ContentUpdate passageEdit) in
  loadingState s1 = LOADING
  /\ content s1 = Some genesisRecord
  /\ get (cache s2) "Fri Jan 02 2026" = Some (spread genesisRecord passageEdit)
  /\ date (spread genesisRecord passageEdit) = "Thursday, January 1, 2026"%string
  /\ loadingState s2 = SUCCESS.
Proof.
  destruct (update_while_loading_is_filed_under_the_new_date Host.JSON_parse loaded
              genesisRecord jan2 passageEdit)
    as (Hloading & Hcontent & Hcache & _ & Hsuccess & _).
  - reflexivity.
  - reflexivity.
  - split; [exact Hloading |]. split; [exact Hcontent |]. split; [exact Hcache |].
    split; [reflexivity | exact Hsuccess].
Defined.


(** January 1 is cached; January 2 is selected and marked; selecting
    January 1 again starts no fetch. *)
Lemma cached_keys_stay_cached_witness :
  let s' := steps loaded [DateSelect jan2; MarkComplete] in
  get (cache s') (toDateString jan1) <> None
  /\ fetches (step s' (DateSelect jan1)) = fetches s'
  /\ loadingState (step s' (DateSelect jan1)) = SUCCESS.
Proof.
  apply (cached_keys_stay_cached Host.JSON_parse loaded [DateSelect jan2; MarkComplete] jan1).
  vm_compute. discriminate.
Defined.




(** The local dates come first, then the date only the cloud has. *)
Lemma mergeProfiles_keeps_local_order_witness :
  exists rest,
    Types.completedDates (progress (mergeProfiles 3 localProfile cloudProfile))
    = ["Fri Jan 02 2026"; "Thu Jan 01 2026"] ++ rest
    /\ (forall d, In d rest <->
                  In d ["Sat Jan 03 2026"; "Fri Jan 02 2026"]
                  /\ ~ In d ["Fri Jan 02 2026"; "Thu Jan 01 2026"]).
Proof.
  destruct (mergeProfiles_keeps_local_order 3 localProfile cloudProfile)
    as (rest & Hdates & Hrest & _).
  - vm_compute. repeat constructor; simpl; intuition discriminate.
  - exists rest. split; [exact Hdates | exact Hrest].
Defined.

Lemma mergeProfiles_argument_order_witness :
  Types.theme (preferences (mergeProfiles 3 localProfile cloudProfile)) = dark
  /\ Types.theme (preferences (mergeProfiles 3 cloudProfile localProfile)) = dark
  /\ Permutation
       (Types.completedDates (progress (mergeProfiles 3 localProfile cloudProfile)))
       (Types.completedDates (progress (mergeProfiles 3 cloudProfile localProfile))).
Proof.
  destruct (mergeProfiles_argument_order 3 localProfile cloudProfile)
    as (Hsame & Hlater & Hdates).
  - discriminate.
  - split; [exact Hlater |]. split; [rewrite <- Hsame; exact Hlater | exact Hdates].
Defined.

End Runs.

Section Months2026.
Import DateUtils Calendar Scenario.
Local Open Scope Z_scope.

(** January 2026 starts on a Thursday. *)
Lemma grid_is_six_weeks_witness :
  let grid := generateCalendarGrid 2026 0 jan1 in
  List.length grid = 42%nat
  /\ map dayNumber grid = consecutive (dayNumber jan1 - 4) 42
  /\ (forall (k : nat) (cell : JsDate),
        nth_error grid k = Some cell -> getDay cell = Z.of_nat k mod 7)
  /\ nth_error grid 4 = Some jan1.
Proof.
  apply (grid_is_six_weeks 2026 0 jan1). unfold onView. lia.
Defined.

Lemma selectable_cells_are_the_days_of_the_month_witness :
  filter (isCurrentMonth jan1) (calendarDays jan1 jan1)
  = map Host.january (countUp 31).
Proof.
  apply (selectable_cells_are_the_days_of_the_month jan1 jan1). unfold onView. simpl. lia.
Defined.

(** February 2028 has 29 days. *)
Lemma getDaysInMonth_is_the_length_of_the_month_witness :
  getDaysInMonth 2028 1 = 29.
Proof.
  apply (getDaysInMonth_is_the_length_of_the_month 2028 1). unfold onView. lia.
Defined.

(** From December 2026 the next month is January 2027. *)
Lemma next_then_previous_month_witness :
  let december := {| getFullYear := 2026; getMonth := 11; getDate := 25 |} in
  let first := {| getFullYear := 2026; getMonth := 11; getDate := 1 |} in
  handleNextMonth december = {| getFullYear := 2027; getMonth := 0; getDate := 1 |}
  /\ handlePrevMonth (handleNextMonth december) = first
  /\ (100 < 2026 \/ 0 < 11 -> handleNextMonth (handlePrevMonth december) = first).
Proof.
  apply (next_then_previous_month {| getFullYear := 2026; getMonth := 11; getDate := 25 |}).
  unfold onView. simpl. lia.
Defined.

End Months2026.
